(** * nerdctl [container prune]: a shallow embedding of
      [cmd/nerdctl/container_prune.go] and the properties of its
      confirmation gate, enumeration, removal loop and report.

    The Go function [containerPruneAction] talks to four collaborators: the
    cobra command (flags and standard streams), the containerd client, the
    package function [removeContainer] and the logrus logger.  Their
    answers are taken from a [Runtime] over an abstract [World]; every
    interaction is recorded, in program order, in a trace of [event]s.

    The error that [containerPruneAction] returns stands for the exit
    status of the command: [None] is [nil], exit code zero. *)

From Stdlib Require Import String Ascii List Bool Arith NArith Lia.
From stdpp Require Import base option list.
Import ListNotations.
Local Open Scope string_scope.
Local Open Scope list_scope.

(** ** Errors *)

(** Modelled from the spec: the type [statusError] is declared in another
    file of the package (next to [removeContainer]); the spec describes it
    as the one distinguished error kind "operation rejected due to the
    object's current state", every other kind being unexpected.  [wrapError]
    stands for an error whose [Unwrap] method yields another error, since
    [errors.As] follows that chain. *)
Inductive error : Type :=
| statusError (msg : string)
| otherError (msg : string)
| wrapError (msg : string) (inner : error).

(** [errors.As(err, &statusError{})]: is there a [statusError] in the
    [Unwrap] chain of [err]? *)
Fixpoint errors_As_statusError (err : error) : bool :=
  match err with
  | statusError _ => true
  | otherError _ => false
  | wrapError _ inner => errors_As_statusError inner
  end.

(** A Go pair [(value, err)] of which exactly one component is meaningful. *)
Inductive result (A : Type) : Type :=
| Ok (a : A)
| Err (e : error).
Arguments Ok {A} a.
Arguments Err {A} e.

(** ** Strings: [strings.ToLower] and [fmt.Fscanf(r, "%s", &v)]

    A Go string, and the input stream, is a sequence of bytes: a [string],
    one [ascii] per byte.  [fmt] reads the stream rune by rune, decoding
    UTF-8, and writes the runes of the token back as UTF-8.

    [ToLower] is [strings.ToLower] on its ASCII path, byte by byte.  On a
    string with a byte beyond 127 Go maps every rune through
    [unicode.ToLower] instead, and no rune beyond ['Y'] has ['y'] as its
    lower case; the bytes beyond 127 are left as they are here, so that
    the comparison of the result with ["y"], the one use the command makes
    of it, is decided as Go decides it. *)

Definition rune_ToLower (c : ascii) : ascii :=
  let n := nat_of_ascii c in
  if Nat.leb 65 n && Nat.leb n 90 then ascii_of_nat (n + 32) else c.

Fixpoint ToLower (s : string) : string :=
  match s with
  | EmptyString => EmptyString
  | String c s' => String (rune_ToLower c) (ToLower s')
  end.

Definition newline : string := String "010"%char EmptyString.

(** A rune is a code point. *)
Definition rune : Type := N.

(** [utf8.RuneError], U+FFFD *)
Definition RuneError : rune := 65533%N.

(** A byte that continues a sequence and lies within [lo, hi]: its six
    payload bits. *)
Definition continuation (lo hi : N) (b : ascii) : option N :=
  let n := N_of_ascii b in
  if (N.leb lo n && N.leb n hi)%bool then Some (N.land n 63) else None.

(** [utf8.acceptRanges]: the bounds of the second byte after the first byte
    [p0] (E0, ED, F0 and F4 narrow them). *)
Definition accept (p0 : N) : N * N :=
  if N.eqb p0 224 then (160, 191)%N
  else if N.eqb p0 237 then (128, 159)%N
  else if N.eqb p0 240 then (144, 191)%N
  else if N.eqb p0 244 then (128, 143)%N
  else (128, 191)%N.

(** The runes that successive [ReadRune] calls yield on a stream of bytes:
    [utf8.DecodeRune] at each position.  A byte that starts no well-formed
    sequence yields [RuneError] and is consumed alone. *)
Fixpoint DecodeRunes (s : string) : list rune :=
  match s with
  | EmptyString => []
  | String b0 s1 =>
      let p0 := N_of_ascii b0 in
      if N.ltb p0 128 then p0 :: DecodeRunes s1
      else if N.ltb p0 194 then RuneError :: DecodeRunes s1
      else if N.ltb p0 224 then
        match s1 with
        | String b1 s2 =>
            match continuation 128 191 b1 with
            | Some x1 => (N.land p0 31 * 64 + x1)%N :: DecodeRunes s2
            | None => RuneError :: DecodeRunes s1
            end
        | EmptyString => RuneError :: DecodeRunes s1
        end
      else if N.ltb p0 240 then
        match s1 with
        | String b1 (String b2 s3) =>
            match
              continuation (fst (accept p0)) (snd (accept p0)) b1,
              continuation 128 191 b2
            with
            | Some x1, Some x2 =>
                (N.land p0 15 * 4096 + x1 * 64 + x2)%N :: DecodeRunes s3
            | _, _ => RuneError :: DecodeRunes s1
            end
        | _ => RuneError :: DecodeRunes s1
        end
      else if N.ltb p0 245 then
        match s1 with
        | String b1 (String b2 (String b3 s4)) =>
            match
              continuation (fst (accept p0)) (snd (accept p0)) b1,
              continuation 128 191 b2,
              continuation 128 191 b3
            with
            | Some x1, Some x2, Some x3 =>
                (N.land p0 7 * 262144 + x1 * 4096 + x2 * 64 + x3)%N ::
                DecodeRunes s4
            | _, _, _ => RuneError :: DecodeRunes s1
            end
        | _ => RuneError :: DecodeRunes s1
        end
      else RuneError :: DecodeRunes s1
  end.

(** [utf8.AppendRune]: the UTF-8 encoding of a rune; a surrogate or a rune
    beyond U+10FFFF is written as [RuneError]. *)
Definition EncodeRune (r : rune) : string :=
  if N.leb r 127 then String (ascii_of_N r) EmptyString
  else if N.leb r 2047 then
    String (ascii_of_N (192 + r / 64))
      (String (ascii_of_N (128 + r mod 64)) EmptyString)
  else
    let r :=
      if (N.ltb 1114111 r || (N.leb 55296 r && N.leb r 57343))%bool
      then RuneError else r in
    if N.leb r 65535 then
      String (ascii_of_N (224 + r / 4096))
        (String (ascii_of_N (128 + (r / 64) mod 64))
           (String (ascii_of_N (128 + r mod 64)) EmptyString))
    else
      String (ascii_of_N (240 + r / 262144))
        (String (ascii_of_N (128 + (r / 4096) mod 64))
           (String (ascii_of_N (128 + (r / 64) mod 64))
              (String (ascii_of_N (128 + r mod 64)) EmptyString))).

Fixpoint EncodeRunes (l : list rune) : string :=
  match l with
  | [] => EmptyString
  | r :: l' => EncodeRune r ++ EncodeRunes l'
  end.

(** [fmt]'s [isSpace]: the ranges of its [space] table. *)
Definition isSpace (r : rune) : bool :=
  if N.leb 65536 r then false
  else
    ((N.leb 9 r && N.leb r 13) || N.eqb r 32 || N.eqb r 133 ||
     N.eqb r 160 || N.eqb r 5760 || (N.leb 8192 r && N.leb r 8202) ||
     (N.leb 8232 r && N.leb r 8233) || N.eqb r 8239 || N.eqb r 8287 ||
     N.eqb r 12288)%bool.

Definition isNewline (r : rune) : bool := N.eqb r 10.

(** [hugeWid]: a scan reads no more than this many runes. *)
Definition hugeWid : N := 1073741824%N.

Fixpoint takeN {A : Type} (n : N) (l : list A) : list A :=
  match l with
  | [] => []
  | x :: l' => if N.eqb n 0 then [] else x :: takeN (N.pred n) l'
  end.

(** The runes that one scan can read from the stream. *)
Definition ReadRunes (input : string) : list rune :=
  takeN hugeWid (DecodeRunes input).

(** [ss.SkipSpace] with [nlIsSpace = false], as [Fscanf] sets it: blanks
    are consumed, a newline is the scan error "unexpected newline" ([None]),
    and the first other rune is left unread.  (A carriage return, followed
    by a newline or not, is consumed like any blank.) *)
Fixpoint SkipSpace (input : list rune) : option (list rune) :=
  match input with
  | [] => Some []
  | r :: rest =>
      if isNewline r then None
      else if isSpace r then SkipSpace rest
      else Some input
  end.

(** [ss.token(true, notSpace)] after the blanks are gone: the longest
    run of non-space runes. *)
Fixpoint token (input : list rune) : list rune :=
  match input with
  | [] => []
  | r :: rest => if isSpace r then [] else r :: token rest
  end.

(** [fmt.Fscanf(input, "%s", &v)] where [v] holds [v0] before the call: the
    value of [v] after it.  On a scan error (newline first, or end of input)
    the operand is left untouched; the error itself is dropped by the
    caller. *)
Definition Fscanf_s (input : string) (v0 : string) : string :=
  match SkipSpace (ReadRunes input) with
  | None => v0
  | Some [] => v0
  | Some rest => EncodeRunes (token rest)
  end.

(** ** Collaborators *)

(** [containerd.Container]: an opaque handle of which only [ID()] is used. *)
Record Container : Type := mkContainer { ID : string }.

(** [*cobra.Command]: the flag set and the input stream. *)
Record Command : Type := mkCommand {
  GetBool : string -> result bool;
  GetString : string -> result string;
  InOrStdin : string
}.

(** Everything observable that the command does, in program order. *)
Inductive event : Type :=
| EvNewClient (r : option error)
| EvGetBool (name : string) (r : result bool)
| EvGetString (name : string) (r : result string)
| EvWrite (text : string)
| EvFscanf (tok : string)
| EvContainers (r : result (list Container))
| EvRemoveContainer (c : Container) (ns : string) (force flag : bool)
                    (r : option error)
| EvWarnf (err : error) (msg : string)
| EvCancel.

(** A statement either falls through with a value or returns from the
    function with its error result. *)
Inductive flow (A : Type) : Type :=
| Next (a : A)
| Return (err : option error).
Arguments Next {A} a.
Arguments Return {A} err.

Section Prune.

Context {World : Type}.

(** The containerd side.  [newClient] and [removeContainer] are functions
    of the package defined outside the file under study; [Containers] is
    the client method.  Each may change the world. *)
Record Runtime : Type := mkRuntime {
  newClient : Command -> World -> option error * World;
  Containers : World -> result (list Container) * World;
  removeContainer :
    Command -> Container -> string -> bool -> bool -> World ->
    option error * World
}.

(** The world, the local slice [deleted] of [containerPruneAction], and the
    trace so far. *)
Record state : Type := mkState {
  world : World;
  deleted : list string;
  trace : list event
}.

Definition Go (A : Type) : Type := state -> flow A * state.

Definition ret {A} (a : A) : Go A := fun s => (Next a, s).

Definition returns {A} (err : option error) : Go A :=
  fun s => (Return err, s).

Definition bind {A B} (m : Go A) (k : A -> Go B) : Go B :=
  fun s =>
    match m s with
    | (Next a, s') => k a s'
    | (Return err, s') => (Return err, s')
    end.

Notation "'let*' x ':=' m 'in' k" := (bind m (fun x => k))
  (at level 10, x pattern, m at level 100, k at level 200).
Notation "m ';;' k" := (bind m (fun _ => k))
  (at level 100, k at level 200, right associativity).

(** [x, err := f(); if err != nil { return err }] *)
Definition check {A} (r : result A) : Go A :=
  match r with
  | Ok a => ret a
  | Err e => returns (Some e)
  end.

(** [defer d()]: [d] runs when the rest of the function is left. *)
Definition defer {A} (d : state -> state) (rest : Go A) : Go A :=
  fun s => let '(r, s') := rest s in (r, d s').

Definition emit (ev : event) (s : state) : state :=
  mkState (world s) (deleted s) (trace s ++ [ev]).

Definition log (ev : event) : Go unit := fun s => (Next tt, emit ev s).

Variable rt : Runtime.

Definition call_newClient (cmd : Command) : Go (option error) :=
  fun s =>
    let '(r, w) := newClient rt cmd (world s) in
    (Next r, mkState w (deleted s) (trace s ++ [EvNewClient r])).

Definition cancel : state -> state := emit EvCancel.

Definition Flags_GetBool (cmd : Command) (name : string) : Go (result bool) :=
  log (EvGetBool name (GetBool cmd name));; ret (GetBool cmd name).

Definition Flags_GetString (cmd : Command) (name : string)
  : Go (result string) :=
  log (EvGetString name (GetString cmd name));; ret (GetString cmd name).

(** [fmt.Fprintf(cmd.OutOrStdout(), "%s", text)] *)
Definition Fprintf (text : string) : Go unit := log (EvWrite text).

(** [fmt.Fprintln(cmd.OutOrStdout(), text)] *)
Definition Fprintln (text : string) : Go unit :=
  log (EvWrite (text ++ newline)).

(** [var v string; fmt.Fscanf(cmd.InOrStdin(), "%s", &v)] *)
Definition Fscanf (cmd : Command) : Go string :=
  let tok := Fscanf_s (InOrStdin cmd) EmptyString in
  log (EvFscanf tok);; ret tok.

Definition client_Containers : Go (result (list Container)) :=
  fun s =>
    let '(r, w) := Containers rt (world s) in
    (Next r, mkState w (deleted s) (trace s ++ [EvContainers r])).

Definition call_removeContainer (cmd : Command) (c : Container)
    (ns : string) (force flag : bool) : Go (option error) :=
  fun s =>
    let '(r, w) := removeContainer rt cmd c ns force flag (world s) in
    (Next r,
     mkState w (deleted s) (trace s ++ [EvRemoveContainer c ns force flag r])).

(** [logrus.WithError(err).Warnf("failed to remove container %s", id)] *)
Definition Warnf (err : error) (id : string) : Go unit :=
  log (EvWarnf err ("failed to remove container " ++ id)).

Definition set_deleted (l : list string) : Go unit :=
  fun s => (Next tt, mkState (world s) l (trace s)).

Definition get_deleted : Go (list string) := fun s => (Next (deleted s), s).

(** [deleted = append(deleted, id)] *)
Definition append_deleted (id : string) : Go unit :=
  fun s => (Next tt, mkState (world s) (deleted s ++ [id]) (trace s)).

(** The text of line 55. *)
Definition prompt : string :=
  "WARNING! This will remove all stopped containers." ++ newline ++
  "Are you sure you want to continue? [y/N] ".

(** Lines 74-84: [for _, container := range containers { ... }]. *)
Fixpoint range_containers (cmd : Command) (ns : string)
    (containers : list Container) : Go unit :=
  match containers with
  | [] => ret tt
  | container :: rest =>
      let* err := call_removeContainer cmd container ns false true in
      (match err with
       | None => append_deleted (ID container)
       | Some e =>
           if errors_As_statusError e then ret tt
           else Warnf e (ID container)
       end);;
      range_containers cmd ns rest
  end.

(** Lines 88-90: [for _, id := range deleted { Fprintln(out, id) }]. *)
Fixpoint range_deleted (ids : list string) : Go unit :=
  match ids with
  | [] => ret tt
  | id :: rest => Fprintln id;; range_deleted rest
  end.

(** Lines 53-61: the confirmation gate. *)
Definition confirmation (cmd : Command) (force : bool) : Go unit :=
  if negb force then
    Fprintf prompt;;
    let* confirm := Fscanf cmd in
    if negb (String.eqb (ToLower confirm) "y") then returns None
    else ret tt
  else ret tt.

(** Lines 86-91: the report. *)
Definition report : Go unit :=
  let* ids := get_deleted in
  if Nat.ltb 0 (length ids) then
    Fprintln "Deleted Containers:";;
    range_deleted ids
  else ret tt.

(** Lines 63-93: enumeration, removal loop, report. *)
Definition prune_and_report (cmd : Command) : Go unit :=
  let* ns := (let* r := Flags_GetString cmd "namespace" in check r) in
  let* containers := (let* r := client_Containers in check r) in
  set_deleted [];;
  range_containers cmd ns containers;;
  report;;
  returns None.

(** Lines 41-94. *)
Definition containerPruneAction_body (cmd : Command) : Go unit :=
  let* err := call_newClient cmd in
  (match err with Some e => returns (Some e) | None => ret tt end);;
  defer cancel (
    let* force := (let* r := Flags_GetBool cmd "force" in check r) in
    confirmation cmd force;;
    prune_and_report cmd).

(** The call [containerPruneAction(cmd, _)] in world [w]: the error it
    returns ([None] is [nil]) and the final state. *)
Definition containerPruneAction (cmd : Command) (w : World)
  : option error * state :=
  match containerPruneAction_body cmd (mkState w [] []) with
  | (Return err, s) => (err, s)
  | (Next _, s) => (None, s)
  end.

End Prune.

Arguments Runtime World : clear implicits.
Arguments state World : clear implicits.

(** ** A concrete containerd for running the model *)

Module Demo.

(** What the daemon would answer to a removal request. *)
Inductive status : Type := Stopped | Running | Broken.

Record daemon : Type := mkDaemon {
  reachable : bool;
  listable : bool;
  instances : list (Container * status)
}.

Definition status_of (d : daemon) (c : Container) : option status :=
  match List.find (fun p => String.eqb (ID (fst p)) (ID c)) (instances d) with
  | Some p => Some (snd p)
  | None => None
  end.

Definition drop (d : daemon) (c : Container) : daemon :=
  mkDaemon (reachable d) (listable d)
    (List.filter (fun p => negb (String.eqb (ID (fst p)) (ID c)))
       (instances d)).

Definition running : error := statusError "container is running, stop it first".

Definition busy : error := wrapError "remove" (otherError "device busy").

Definition runtime : Runtime daemon :=
  @mkRuntime daemon
    (fun _ d =>
       if reachable d then (None, d)
       else (Some (otherError "cannot access containerd socket"), d))
    (fun d =>
       if listable d then (Ok (List.map fst (instances d)), d)
       else (Err (otherError "rpc error: unavailable"), d))
    (fun _ c _ _ _ d =>
       match status_of d c with
       | Some Stopped => (None, drop d c)
       | Some Running => (Some running, d)
       | Some Broken => (Some busy, d)
       | None => (Some (otherError "no such container"), d)
       end).

Definition flags (force : result bool) (ns : result string) (input : string)
  : Command :=
  mkCommand
    (fun name => if String.eqb name "force" then force
                 else Err (otherError "flag accessed but not defined"))
    (fun name => if String.eqb name "namespace" then ns
                 else Err (otherError "flag accessed but not defined"))
    input.

Definition c1 : Container := mkContainer "c1".
Definition c2 : Container := mkContainer "c2".
Definition c3 : Container := mkContainer "c3".
Definition c4 : Container := mkContainer "c4".

Definition three : daemon :=
  mkDaemon true true
    [(c1, Stopped); (c2, Running); (c3, Stopped); (c4, Broken)].

(** [nerdctl container prune --force] *)
Definition forced : Command := flags (Ok true) (Ok "default") "".

(** [nerdctl container prune] with [input] on the input stream *)
Definition asked (input : string) : Command :=
  flags (Ok false) (Ok "default") input.

(** A command whose flag set lacks the [force] flag. *)
Definition no_force_flag : Command :=
  flags (Err (otherError "flag accessed but not defined: force"))
    (Ok "default") "".

Definition unreachable : daemon := mkDaemon false true (instances three).

Definition unlistable : daemon := mkDaemon true false (instances three).

Definition empty : daemon := mkDaemon true true [].

End Demo.

(** ** Reading a trace *)

(** One call of [removeContainer]: the instance and what the call returned. *)
Definition attempt : Type := (Container * option error)%type.

(** The removal calls of a trace, in call order. *)
Fixpoint removals (tr : list event) : list attempt :=
  match tr with
  | [] => []
  | EvRemoveContainer c _ _ _ r :: tr' => (c, r) :: removals tr'
  | _ :: tr' => removals tr'
  end.

(** The arguments of the removal calls of a trace, in call order. *)
Fixpoint removal_calls (tr : list event)
  : list (Container * string * bool * bool) :=
  match tr with
  | [] => []
  | EvRemoveContainer c ns force flag _ :: tr' =>
      (c, ns, force, flag) :: removal_calls tr'
  | _ :: tr' => removal_calls tr'
  end.

(** The texts written to the output stream, in order. *)
Fixpoint written (tr : list event) : list string :=
  match tr with
  | [] => []
  | EvWrite text :: tr' => text :: written tr'
  | _ :: tr' => written tr'
  end.

(** The identifiers of the attempts that returned [nil]. *)
Fixpoint successes (atts : list attempt) : list string :=
  match atts with
  | [] => []
  | (c, None) :: atts' => ID c :: successes atts'
  | (_, Some _) :: atts' => successes atts'
  end.

Definition is_removal (ev : event) : bool :=
  match ev with
  | EvRemoveContainer _ _ _ _ _ => true
  | _ => false
  end.

(** What one iteration of the removal loop leaves in the trace after the
    call itself. *)
Definition warn_events (a : attempt) : list event :=
  match a.2 with
  | Some e =>
      if errors_As_statusError e then []
      else [EvWarnf e ("failed to remove container " ++ ID a.1)]
  | None => []
  end.

Definition attempt_events (ns : string) (a : attempt) : list event :=
  EvRemoveContainer a.1 ns false true a.2 :: warn_events a.

Fixpoint loop_events (ns : string) (atts : list attempt) : list event :=
  match atts with
  | [] => []
  | a :: atts' => attempt_events ns a ++ loop_events ns atts'
  end.

Definition report_events (ids : list string) : list event :=
  match ids with
  | [] => []
  | _ :: _ =>
      EvWrite ("Deleted Containers:" ++ newline) ::
      map (fun id => EvWrite (id ++ newline)) ids
  end.

(** The events up to and including the confirmation gate, when the gate
    lets the command through. *)
Definition gate_events (cmd : Command) (force : bool) : list event :=
  EvNewClient None :: EvGetBool "force" (Ok force) ::
  (if force then []
   else [EvWrite prompt; EvFscanf (Fscanf_s (InOrStdin cmd) EmptyString)]).

(** The gate lets the command through. *)
Definition confirmed (cmd : Command) (force : bool) : Prop :=
  force = true \/ ToLower (Fscanf_s (InOrStdin cmd) EmptyString) = "y".

(** The removal calls that the loop makes on [cs] from world [w], with the
    answers of the runtime, and the world they leave. *)
Fixpoint replay {World : Type} (rt : Runtime World) (cmd : Command)
    (ns : string) (cs : list Container) (w : World)
  : list attempt * World :=
  match cs with
  | [] => ([], w)
  | c :: cs' =>
      let '(r, w1) := removeContainer rt cmd c ns false true w in
      let '(atts, w2) := replay rt cmd ns cs' w1 in
      ((c, r) :: atts, w2)
  end.

(** The six ways a call of [containerPruneAction] can end. *)
Inductive outcome {World : Type} (rt : Runtime World) (cmd : Command)
    (w : World) : option error * state World -> Prop :=
| out_no_client e w1 :
    newClient rt cmd w = (Some e, w1) ->
    outcome rt cmd w (Some e, mkState w1 [] [EvNewClient (Some e)])
| out_no_force e w1 :
    newClient rt cmd w = (None, w1) ->
    GetBool cmd "force" = Err e ->
    outcome rt cmd w
      (Some e,
       mkState w1 [] [EvNewClient None; EvGetBool "force" (Err e); EvCancel])
| out_declined w1 :
    newClient rt cmd w = (None, w1) ->
    GetBool cmd "force" = Ok false ->
    ToLower (Fscanf_s (InOrStdin cmd) EmptyString) <> "y" ->
    outcome rt cmd w
      (None, mkState w1 [] (gate_events cmd false ++ [EvCancel]))
| out_no_namespace force e w1 :
    newClient rt cmd w = (None, w1) ->
    GetBool cmd "force" = Ok force ->
    confirmed cmd force ->
    GetString cmd "namespace" = Err e ->
    outcome rt cmd w
      (Some e,
       mkState w1 []
         (gate_events cmd force ++
          [EvGetString "namespace" (Err e); EvCancel]))
| out_no_enumeration force ns e w1 w2 :
    newClient rt cmd w = (None, w1) ->
    GetBool cmd "force" = Ok force ->
    confirmed cmd force ->
    GetString cmd "namespace" = Ok ns ->
    Containers rt w1 = (Err e, w2) ->
    outcome rt cmd w
      (Some e,
       mkState w2 []
         (gate_events cmd force ++
          [EvGetString "namespace" (Ok ns); EvContainers (Err e); EvCancel]))
| out_completed force ns atts w1 w2 w3 :
    newClient rt cmd w = (None, w1) ->
    GetBool cmd "force" = Ok force ->
    confirmed cmd force ->
    GetString cmd "namespace" = Ok ns ->
    Containers rt w1 = (Ok atts.*1, w2) ->
    replay rt cmd ns atts.*1 w2 = (atts, w3) ->
    outcome rt cmd w
      (None,
       mkState w3 (successes atts)
         (gate_events cmd force ++
          [EvGetString "namespace" (Ok ns); EvContainers (Ok atts.*1)] ++
          loop_events ns atts ++ report_events (successes atts) ++
          [EvCancel])).

(** ** More readings of a trace *)

(** The warnings of a trace, in order: the error and the message. *)
Fixpoint warnings (tr : list event) : list (error * string) :=
  match tr with
  | [] => []
  | EvWarnf e msg :: tr' => (e, msg) :: warnings tr'
  | _ :: tr' => warnings tr'
  end.

(** The instances whose removal was rejected with a [statusError]. *)
Fixpoint rejected (atts : list attempt) : list Container :=
  match atts with
  | [] => []
  | (c, Some e) :: atts' =>
      if errors_As_statusError e then c :: rejected atts' else rejected atts'
  | (_, None) :: atts' => rejected atts'
  end.

(** The failures that are no [statusError], each with the message of its
    warning. *)
Fixpoint unexpected (atts : list attempt) : list (error * string) :=
  match atts with
  | [] => []
  | (c, Some e) :: atts' =>
      if errors_As_statusError e then unexpected atts'
      else (e, ("failed to remove container " ++ ID c)%string) ::
           unexpected atts'
  | (_, None) :: atts' => unexpected atts'
  end.

(** How many events of a trace satisfy [p]. *)
Definition count (p : event -> bool) (tr : list event) : nat :=
  length (List.filter p tr).

Definition is_newClient (ev : event) : bool :=
  match ev with EvNewClient _ => true | _ => false end.

Definition is_cancel (ev : event) : bool :=
  match ev with EvCancel => true | _ => false end.

Definition is_GetBool (ev : event) : bool :=
  match ev with EvGetBool _ _ => true | _ => false end.

Definition is_GetString (ev : event) : bool :=
  match ev with EvGetString _ _ => true | _ => false end.

Definition is_Fscanf (ev : event) : bool :=
  match ev with EvFscanf _ => true | _ => false end.

Definition is_enumeration (ev : event) : bool :=
  match ev with EvContainers _ => true | _ => false end.

(** ** The command constructor, lines 28-39

    [newContainerPruneCommand] fills in a [cobra.Command] and registers one
    flag on its flag set.  Of pflag the model keeps what the constructor
    and [containerPruneAction] use: a flag set as the list of its flags in
    the order in which they were added, [BoolP], and the typed getters.
    How cobra parses the command line and reaches [RunE] is not
    modelled. *)

(** The value of a flag: a [bool], a [string], or a value of another pflag
    type, given by the name of the type and its text. *)
Inductive flagValue : Type :=
| boolValue (b : bool)
| stringValue (s : string)
| otherValue (type text : string).

Record Flag : Type := mkFlag {
  Name : string;
  Shorthand : string;
  Value : flagValue;
  Usage : string
}.

Definition FlagSet : Type := list Flag.

(** [FlagSet.Lookup] *)
Definition Lookup (fs : FlagSet) (name : string) : option Flag :=
  List.find (fun f => String.eqb (Name f) name) fs.

(** [FlagSet.AddFlag]: the flag is appended; pflag panics ([None]) when
    the name is already defined, when the shorthand has more than one
    character, or when the shorthand is taken. *)
Definition AddFlag (fs : FlagSet) (f : Flag) : option FlagSet :=
  match Lookup fs (Name f) with
  | Some _ => None
  | None =>
      if String.eqb (Shorthand f) "" then Some (fs ++ [f])
      else if Nat.ltb 1 (String.length (Shorthand f)) then None
      else if existsb (fun g => String.eqb (Shorthand g) (Shorthand f)) fs
      then None
      else Some (fs ++ [f])
  end.

(** [FlagSet.BoolP(name, shorthand, value, usage)] *)
Definition BoolP (name shorthand : string) (value : bool) (usage : string)
    (fs : FlagSet) : option FlagSet :=
  AddFlag fs (mkFlag name shorthand (boolValue value) usage).

(** [Value.Type()] *)
Definition Value_Type (v : flagValue) : string :=
  match v with
  | boolValue _ => "bool"
  | stringValue _ => "string"
  | otherValue type _ => type
  end.

(** [FlagSet.GetBool] *)
Definition FlagSet_GetBool (fs : FlagSet) (name : string) : result bool :=
  match Lookup fs name with
  | None => Err (otherError ("flag accessed but not defined: " ++ name))
  | Some f =>
      match Value f with
      | boolValue b => Ok b
      | v =>
          Err (otherError
                 ("trying to get bool value of flag of type " ++ Value_Type v))
      end
  end.

(** [FlagSet.GetString] *)
Definition FlagSet_GetString (fs : FlagSet) (name : string) : result string :=
  match Lookup fs name with
  | None => Err (otherError ("flag accessed but not defined: " ++ name))
  | Some f =>
      match Value f with
      | stringValue s => Ok s
      | v =>
          Err (otherError
                 ("trying to get string value of flag of type " ++
                  Value_Type v))
      end
  end.

(** The validators of positional arguments that cobra offers without a
    parameter; the constructor picks [cobra.NoArgs]. *)
Inductive PositionalArgs : Type :=
| ArbitraryArgs
| NoArgs
| OnlyValidArgs.

(** The fields of [cobra.Command] that the constructor sets, and the flag
    set behind [Flags()]. *)
Record cobra_Command (Action : Type) : Type := mkCobra {
  Use : string;
  Short : string;
  Args : PositionalArgs;
  RunE : Action;
  SilenceUsage : bool;
  SilenceErrors : bool;
  Flags : FlagSet
}.
Arguments mkCobra {Action}.
Arguments Use {Action}.
Arguments Short {Action}.
Arguments Args {Action}.
Arguments RunE {Action}.
Arguments SilenceUsage {Action}.
Arguments SilenceErrors {Action}.
Arguments Flags {Action}.

(** Lines 28-39; [None] is a panic of [BoolP]. *)
Definition newContainerPruneCommand {World : Type} (rt : Runtime World)
  : option (cobra_Command (Command -> World -> option error * state World)) :=
  let containerPruneCommand :=
    mkCobra "prune [flags]" "Remove all stopped containers" NoArgs
      (containerPruneAction rt) true true [] in
  match
    BoolP "force" "f" false "Do not prompt for confirmation"
      (Flags containerPruneCommand)
  with
  | Some flags =>
      Some
        (mkCobra (Use containerPruneCommand) (Short containerPruneCommand)
           (Args containerPruneCommand) (RunE containerPruneCommand)
           (SilenceUsage containerPruneCommand)
           (SilenceErrors containerPruneCommand) flags)
  | None => None
  end.

(** A command whose [Flags()] is the flag set [fs] and whose input stream
    is [input], as [containerPruneAction] reads it. *)
Definition command_of (fs : FlagSet) (input : string) : Command :=
  mkCommand (FlagSet_GetBool fs) (FlagSet_GetString fs) input.

(** Flags of the kind a root command hands down. *)
Definition root_flags : FlagSet :=
  [mkFlag "debug" "" (boolValue false) "debug mode";
   mkFlag "namespace" "n" (stringValue "default") "containerd namespace";
   mkFlag "help" "h" (boolValue false) "help for prune"].

(** ** The model at work *)

Example Fscanf_s_word : Fscanf_s "yes please" EmptyString = "yes".
Proof. reflexivity. Qed.

Example Fscanf_s_leading_blanks :
  Fscanf_s (String " " (String "009" (String "Y" newline))) EmptyString = "Y".
Proof. reflexivity. Qed.

Example Fscanf_s_newline_first :
  Fscanf_s (String "010" "y") EmptyString = EmptyString.
Proof. reflexivity. Qed.

Example Fscanf_s_end_of_input : Fscanf_s EmptyString EmptyString = EmptyString.
Proof. reflexivity. Qed.

(** [y] followed by U+00A0 (bytes C2 A0), a blank for [fmt]. *)
Example Fscanf_s_no_break_space :
  Fscanf_s (String "y" (String "194" (String "160" EmptyString))) EmptyString
  = "y".
Proof. reflexivity. Qed.

(** U+3000 (bytes E3 80 80), a blank for [fmt], before [Y]. *)
Example Fscanf_s_ideographic_space :
  Fscanf_s
    (String "227" (String "128" (String "128" (String "Y" newline))))
    EmptyString
  = "Y".
Proof. reflexivity. Qed.

(** [y] followed by a byte that starts no sequence: the token holds
    U+FFFD (bytes EF BF BD) after the [y]. *)
Example Fscanf_s_ill_formed :
  Fscanf_s (String "y" (String "194" EmptyString)) EmptyString
  = String "y" (String "239" (String "191" (String "189" EmptyString))).
Proof. reflexivity. Qed.

Example DecodeRunes_euro :
  DecodeRunes (String "226" (String "130" (String "172" EmptyString)))
  = [8364%N] /\
  EncodeRune 8364%N =
    String "226" (String "130" (String "172" EmptyString)).
Proof. split; reflexivity. Qed.

Example ToLower_mixed : ToLower "Yes, 42!" = "yes, 42!".
Proof. reflexivity. Qed.

Example errors_As_wrapped :
  errors_As_statusError (wrapError "rm" Demo.running) = true /\
  errors_As_statusError Demo.busy = false.
Proof. split; reflexivity. Qed.

(** Forced prune of a stopped, a running, a stopped and a broken instance:
    the two stopped ones are deleted and reported, the running one is
    skipped in silence, the broken one gives a warning. *)
Example prune_forced :
  containerPruneAction Demo.runtime Demo.forced Demo.three =
    (None,
     mkState
       (Demo.mkDaemon true true
          [(Demo.c2, Demo.Running); (Demo.c4, Demo.Broken)])
       ["c1"; "c3"]
       [EvNewClient None; EvGetBool "force" (Ok true);
        EvGetString "namespace" (Ok "default");
        EvContainers (Ok [Demo.c1; Demo.c2; Demo.c3; Demo.c4]);
        EvRemoveContainer Demo.c1 "default" false true None;
        EvRemoveContainer Demo.c2 "default" false true (Some Demo.running);
        EvRemoveContainer Demo.c3 "default" false true None;
        EvRemoveContainer Demo.c4 "default" false true (Some Demo.busy);
        EvWarnf Demo.busy "failed to remove container c4";
        EvWrite ("Deleted Containers:" ++ newline);
        EvWrite ("c1" ++ newline); EvWrite ("c3" ++ newline);
        EvCancel]).
Proof. reflexivity. Qed.

Example prune_declined :
  containerPruneAction Demo.runtime (Demo.asked "n") Demo.three =
    (None,
     mkState Demo.three []
       [EvNewClient None; EvGetBool "force" (Ok false);
        EvWrite prompt; EvFscanf "n"; EvCancel]).
Proof. reflexivity. Qed.

Example prune_nothing_to_do :
  containerPruneAction Demo.runtime Demo.forced Demo.empty =
    (None,
     mkState Demo.empty []
       [EvNewClient None; EvGetBool "force" (Ok true);
        EvGetString "namespace" (Ok "default"); EvContainers (Ok []);
        EvCancel]).
Proof. reflexivity. Qed.

(** ** The removal loop and the report loop *)

Section Loops.

Context {World : Type} (rt : Runtime World).

Lemma range_containers_run cmd ns cs (s : state World) :
  exists atts w',
    range_containers rt cmd ns cs s =
      (Next tt,
       mkState w' (deleted s ++ successes atts)
         (trace s ++ loop_events ns atts)) /\
    atts.*1 = cs /\
    replay rt cmd ns cs (world s) = (atts, w').
Proof.
  revert s. induction cs as [|c cs IH]; intros s.
  - exists [], (world s). simpl. rewrite !app_nil_r. by destruct s.
  - simpl. unfold bind at 1. unfold call_removeContainer.
    destruct (removeContainer rt cmd c ns false true (world s)) as [r w1] eqn:E.
    unfold bind at 1.
    destruct r as [e|].
    + destruct (errors_As_statusError e) eqn:Has.
      * simpl.
        edestruct IH as (atts & w' & -> & Hcs & Hre).
        exists ((c, Some e) :: atts), w'. simpl in Hre. rewrite Hre.
        split; [|split; [simpl; f_equal; exact Hcs|done]]. simpl.
        unfold attempt_events, warn_events. simpl. rewrite Has. simpl.
        by rewrite <- app_assoc.
      * simpl.
        edestruct IH as (atts & w' & -> & Hcs & Hre).
        exists ((c, Some e) :: atts), w'. simpl in Hre. rewrite Hre.
        split; [|split; [simpl; f_equal; exact Hcs|done]]. simpl.
        unfold attempt_events, warn_events. simpl. rewrite Has. simpl.
        by rewrite <- !app_assoc.
    + simpl.
      edestruct IH as (atts & w' & -> & Hcs & Hre).
      exists ((c, None) :: atts), w'. simpl in Hre. rewrite Hre.
      split; [|split; [simpl; f_equal; exact Hcs|done]]. simpl.
      unfold attempt_events, warn_events. simpl.
      by rewrite <- !app_assoc.
Qed.

Lemma range_deleted_run ids (s : state World) :
  range_deleted ids s =
    (Next tt,
     mkState (world s) (deleted s)
       (trace s ++ map (fun id => EvWrite (id ++ newline)) ids)).
Proof.
  revert s. induction ids as [|id ids IH]; intros s.
  - simpl. rewrite app_nil_r. by destruct s.
  - simpl. unfold bind, Fprintln, log, emit. rewrite IH. simpl.
    by rewrite <- app_assoc.
Qed.

End Loops.

(** ** Every call ends in one of the six outcomes *)

Section Outcome.

Context {World : Type} (rt : Runtime World).

Lemma String_eqb_negb_false (a b : string) :
  negb (String.eqb a b) = false -> a = b.
Proof.
  intros H. apply String.eqb_eq. by destruct (String.eqb a b).
Qed.

Lemma String_eqb_negb_true (a b : string) :
  negb (String.eqb a b) = true -> a <> b.
Proof.
  intros H ->. by rewrite String.eqb_refl in H.
Qed.

Lemma report_run (s : state World) :
  report s =
    (Next tt,
     mkState (world s) (deleted s) (trace s ++ report_events (deleted s))).
Proof.
  unfold report. unfold bind at 1. unfold get_deleted.
  destruct s as [w ids tr]. cbn [world deleted trace].
  destruct ids as [|id ids]; cbn [length Nat.ltb Nat.leb].
  - unfold ret. simpl. by rewrite app_nil_r.
  - unfold bind at 1. unfold Fprintln at 1. unfold log, emit.
    cbn [world deleted trace].
    rewrite range_deleted_run. cbn [world deleted trace].
    unfold report_events, newline. by rewrite <- app_assoc.
Qed.

(** Lines 63-93, run from a state whose [deleted] is still empty. *)
Lemma prune_and_report_run cmd (w1 : World) (tr : list event) :
  let res := prune_and_report rt cmd (mkState w1 [] tr) in
  (exists e,
     GetString cmd "namespace" = Err e /\
     res =
       (Return (Some e),
        mkState w1 [] (tr ++ [EvGetString "namespace" (Err e)]))) \/
  (exists ns e w2,
     GetString cmd "namespace" = Ok ns /\
     Containers rt w1 = (Err e, w2) /\
     res =
       (Return (Some e),
        mkState w2 []
          (tr ++ [EvGetString "namespace" (Ok ns); EvContainers (Err e)]))) \/
  (exists ns atts w2 w3,
     GetString cmd "namespace" = Ok ns /\
     Containers rt w1 = (Ok atts.*1, w2) /\
     replay rt cmd ns atts.*1 w2 = (atts, w3) /\
     res =
       (Return None,
        mkState w3 (successes atts)
          (tr ++ [EvGetString "namespace" (Ok ns); EvContainers (Ok atts.*1)]
              ++ loop_events ns atts ++ report_events (successes atts)))).
Proof.
  intros res. set (x := res).
  assert (E : x = res) by reflexivity. clearbody x. subst res. revert E.
  unfold prune_and_report.
  unfold bind at 1. unfold bind at 1. unfold Flags_GetString.
  unfold bind at 1. unfold log, emit. cbn [world deleted trace].
  unfold ret at 1.
  destruct (GetString cmd "namespace") as [ns|e] eqn:Hns.
  2: { intros ->. left. by exists e. }
  unfold check at 1. unfold ret at 1.
  unfold bind at 1. unfold bind at 1. unfold client_Containers.
  cbn [world deleted trace].
  destruct (Containers rt w1) as [[cs|e] w2] eqn:Hcs.
  2: { intros ->. right. left. exists ns, e, w2.
       rewrite <- app_assoc. by simpl. }
  unfold check at 1. unfold ret at 1.
  unfold bind at 1. unfold set_deleted. cbn [world deleted trace].
  unfold bind at 1.
  destruct (range_containers_run rt cmd ns cs
              (mkState w2 []
                 ((tr ++ [EvGetString "namespace" (Ok ns)]) ++
                  [EvContainers (Ok cs)])))
    as (atts & w3 & -> & Hatts & Hre).
  cbn [world deleted trace app] in *. subst cs.
  unfold bind at 1. rewrite report_run. cbn [world deleted trace].
  unfold returns. intros ->. right. right.
  exists ns, atts, w2, w3. split; [done|]. split; [done|]. split; [done|].
  repeat (rewrite <- !app_assoc; simpl). done.
Qed.

Lemma containerPruneAction_outcome cmd (w : World) :
  outcome rt cmd w (containerPruneAction rt cmd w).
Proof.
  unfold containerPruneAction, containerPruneAction_body.
  unfold bind at 1. unfold call_newClient. cbn [world deleted trace app].
  destruct (newClient rt cmd w) as [[e|] w1] eqn:Hnew.
  { unfold bind at 1. unfold returns. by apply out_no_client. }
  unfold bind at 1. unfold ret at 1. unfold defer.
  unfold bind at 1. unfold bind at 1. unfold Flags_GetBool.
  unfold bind at 1. unfold log, emit. cbn [world deleted trace app].
  unfold ret at 1.
  destruct (GetBool cmd "force") as [force|e] eqn:Hforce.
  2: { unfold check, returns, cancel, emit. cbn [world deleted trace app].
       by apply out_no_force. }
  unfold check at 1. unfold ret at 1.
  unfold bind at 1. unfold confirmation.
  destruct force; cbn [negb].
  - unfold ret at 1.
    destruct (prune_and_report_run cmd w1
                [EvNewClient None; EvGetBool "force" (Ok true)])
      as [(e & Hns & ->)|[(ns & e & w2 & Hns & Hcs & ->)|
                          (ns & atts & w2 & w3 & Hns & Hcs & Hre & ->)]];
      unfold cancel, emit; cbn [world deleted trace].
    + eapply (out_no_namespace rt cmd w true); eauto. by left.
    + eapply (out_no_enumeration rt cmd w true); eauto. by left.
    + rewrite <- !app_assoc.
      eapply (out_completed rt cmd w true); eauto. by left.
  - unfold bind at 1. unfold Fprintf. unfold log, emit.
    cbn [world deleted trace app].
    unfold bind at 1. unfold Fscanf. unfold bind at 1.
    unfold log, emit. cbn [world deleted trace app]. unfold ret at 1.
    destruct (negb (String.eqb
                      (ToLower (Fscanf_s (InOrStdin cmd) EmptyString)) "y"))
      eqn:Hyes.
    { unfold returns, cancel, emit. cbn [world deleted trace app].
      apply (out_declined rt cmd w); auto.
      by apply String_eqb_negb_true. }
    apply String_eqb_negb_false in Hyes. unfold ret at 1.
    destruct (prune_and_report_run cmd w1
                [EvNewClient None; EvGetBool "force" (Ok false);
                 EvWrite prompt;
                 EvFscanf (Fscanf_s (InOrStdin cmd) EmptyString)])
      as [(e & Hns & ->)|[(ns & e & w2 & Hns & Hcs & ->)|
                          (ns & atts & w2 & w3 & Hns & Hcs & Hre & ->)]];
      unfold cancel, emit; cbn [world deleted trace].
    + eapply (out_no_namespace rt cmd w false); eauto. by right.
    + eapply (out_no_enumeration rt cmd w false); eauto. by right.
    + rewrite <- !app_assoc.
      eapply (out_completed rt cmd w false); eauto. by right.
Qed.

End Outcome.

(** ** Facts about traces *)

Lemma removals_app (tr1 tr2 : list event) :
  removals (tr1 ++ tr2) = removals tr1 ++ removals tr2.
Proof.
  induction tr1 as [|ev tr1 IH]; [done|].
  destruct ev; simpl; by rewrite ?IH.
Qed.

Lemma written_app (tr1 tr2 : list event) :
  written (tr1 ++ tr2) = written tr1 ++ written tr2.
Proof.
  induction tr1 as [|ev tr1 IH]; [done|].
  destruct ev; simpl; by rewrite ?IH.
Qed.

Lemma successes_app (a1 a2 : list attempt) :
  successes (a1 ++ a2) = successes a1 ++ successes a2.
Proof.
  induction a1 as [|[c [e|]] a1 IH]; simpl; by rewrite ?IH.
Qed.

Lemma removals_warn_events a : removals (warn_events a) = [].
Proof.
  destruct a as [c [e|]]; unfold warn_events; simpl; [|done].
  by destruct (errors_As_statusError e).
Qed.

Lemma written_warn_events a : written (warn_events a) = [].
Proof.
  destruct a as [c [e|]]; unfold warn_events; simpl; [|done].
  by destruct (errors_As_statusError e).
Qed.

Lemma removals_loop_events ns atts : removals (loop_events ns atts) = atts.
Proof.
  induction atts as [|[c r] atts IH]; [done|].
  simpl. rewrite removals_app, removals_warn_events, IH. done.
Qed.

Lemma written_loop_events ns atts : written (loop_events ns atts) = [].
Proof.
  induction atts as [|[c r] atts IH]; [done|].
  simpl. by rewrite written_app, written_warn_events, IH.
Qed.

Lemma removals_map_EvWrite (f : string -> string) ids :
  removals (map (fun id => EvWrite (f id)) ids) = [].
Proof. induction ids; simpl; done. Qed.

Lemma written_map_EvWrite (f : string -> string) ids :
  written (map (fun id => EvWrite (f id)) ids) = map f ids.
Proof. induction ids; simpl; by f_equal. Qed.

Lemma removals_report_events ids : removals (report_events ids) = [].
Proof.
  destruct ids as [|id ids]; [done|]. unfold report_events.
  cbn [removals]. apply removals_map_EvWrite.
Qed.

Lemma written_report_events ids :
  written (report_events ids) =
    match ids with
    | [] => []
    | _ :: _ =>
        ("Deleted Containers:" ++ newline)%string ::
        map (fun id => (id ++ newline)%string) ids
    end.
Proof.
  destruct ids as [|id ids]; [done|]. unfold report_events.
  cbn [written]. f_equal.
  apply (written_map_EvWrite (fun id => (id ++ newline)%string)).
Qed.

Lemma removals_gate_events cmd force : removals (gate_events cmd force) = [].
Proof. by destruct force. Qed.

Lemma written_gate_events cmd force :
  written (gate_events cmd force) = if force then [] else [prompt].
Proof. by destruct force. Qed.

Lemma elem_of_removals tr (a : attempt) :
  a ∈ removals tr <->
  exists ns force flag, EvRemoveContainer a.1 ns force flag a.2 ∈ tr.
Proof.
  induction tr as [|ev tr IH].
  - simpl. split; [by intros ?%elem_of_nil|].
    by intros (? & ? & ? & ?%elem_of_nil).
  - destruct ev; simpl;
      try (rewrite IH; split;
           [intros (ns & f & b & H); exists ns, f, b; by right
           |intros (ns & f & b & H); exists ns, f, b;
            apply elem_of_cons in H as [H|H]; [discriminate|done]]).
    rewrite elem_of_cons, IH. split.
    + intros [->|(ns' & f & b & H)]; simpl.
      * exists ns, force, flag. by left.
      * exists ns', f, b. by right.
    + intros (ns' & f & b & H). apply elem_of_cons in H as [H|H].
      * left. destruct a. simpl in H. by inversion H.
      * right. by exists ns', f, b.
Qed.

Lemma elem_of_successes atts id :
  id ∈ successes atts <-> exists c, (c, None) ∈ atts /\ ID c = id.
Proof.
  induction atts as [|[c [e|]] atts IH]; simpl.
  - split; [by intros ?%elem_of_nil|]. by intros (? & ?%elem_of_nil & _).
  - rewrite IH. split.
    + intros (c' & H & <-). exists c'. split; [by right|done].
    + intros (c' & H & <-). apply elem_of_cons in H as [H|H];
        [discriminate|]. by exists c'.
  - rewrite elem_of_cons, IH. split.
    + intros [->|(c' & H & <-)].
      * exists c. split; [by left|done].
      * exists c'. split; [by right|done].
    + intros (c' & H & <-). apply elem_of_cons in H as [H|H].
      * left. by inversion H.
      * right. by exists c'.
Qed.

Lemma successes_sublist atts : successes atts `sublist_of` (ID <$> atts.*1).
Proof.
  induction atts as [|[c [e|]] atts IH]; simpl.
  - constructor.
  - by apply sublist_cons.
  - by apply sublist_skip.
Qed.

(** Cutting a trace at a removal call: a prefix without removal calls lies
    wholly before the cut. *)
Lemma split_after_prefix (hdr rest pre post : list event) ev :
  removals hdr = [] -> is_removal ev = true ->
  hdr ++ rest = pre ++ ev :: post ->
  exists pre', pre = hdr ++ pre' /\ rest = pre' ++ ev :: post.
Proof.
  revert pre. induction hdr as [|h hdr IH]; intros pre Hhdr Hev Heq.
  - by exists pre.
  - destruct pre as [|p pre]; simpl in Heq; inversion Heq; subst.
    + by destruct ev.
    + destruct (IH pre) as (pre' & -> & ->); auto.
      * destruct p; simpl in Hhdr; try done.
      * by exists pre'.
Qed.

Lemma no_removal_split (tr pre post : list event) ev :
  removals tr = [] -> is_removal ev = true -> tr <> pre ++ ev :: post.
Proof.
  intros Htr Hev ->. rewrite removals_app in Htr.
  destruct ev; try discriminate. simpl in Htr.
  by apply app_eq_nil in Htr as [_ ?].
Qed.

(** Cutting the events of the removal loop at a removal call cuts the list
    of attempts at that attempt. *)
Lemma loop_events_split ns atts tail pre post c ns' f b r :
  removals tail = [] ->
  loop_events ns atts ++ tail = pre ++ EvRemoveContainer c ns' f b r :: post ->
  exists a1 a2,
    atts = a1 ++ (c, r) :: a2 /\
    pre = loop_events ns a1 /\
    post = warn_events (c, r) ++ loop_events ns a2 ++ tail /\
    ns' = ns /\ f = false /\ b = true.
Proof.
  intros Htail. revert pre.
  induction atts as [|a atts IH]; intros pre Heq.
  - simpl in Heq. by apply no_removal_split in Heq.
  - cbn [loop_events attempt_events] in Heq.
    rewrite <- app_assoc in Heq.
    destruct pre as [|p pre]; simpl in Heq; inversion Heq; subst.
    + exists [], atts. destruct a as [c' r']. simpl in *. done.
    + match goal with
      | H : warn_events _ ++ _ = _ |- _ =>
          apply split_after_prefix in H as (pre' & -> & Hrest);
            [|apply removals_warn_events|done]
      end.
      destruct (IH _ Hrest) as (a1 & a2 & -> & -> & -> & -> & -> & ->).
      exists (a :: a1), a2. done.
Qed.

Section Inversion.

Context {World : Type} (rt : Runtime World) (cmd : Command) (w : World).

(** A removal call in the trace pins down the whole run. *)
Lemma removal_split pre post c ns f b r :
  trace (containerPruneAction rt cmd w).2 =
    pre ++ EvRemoveContainer c ns f b r :: post ->
  exists force a1 a2,
    GetString cmd "namespace" = Ok ns /\ f = false /\ b = true /\
    (containerPruneAction rt cmd w).1 = None /\
    deleted (containerPruneAction rt cmd w).2 =
      successes (a1 ++ (c, r) :: a2) /\
    pre = gate_events cmd force ++
          [EvGetString "namespace" (Ok ns);
           EvContainers (Ok (a1 ++ (c, r) :: a2).*1)] ++
          loop_events ns a1 /\
    post = warn_events (c, r) ++ loop_events ns a2 ++
           report_events (successes (a1 ++ (c, r) :: a2)) ++ [EvCancel].
Proof.
  destruct (containerPruneAction_outcome rt cmd w)
    as [e w1 Hnew|e w1 Hnew Hforce|w1 Hnew Hforce Hno
       |force e w1 Hnew Hforce Hyes Hns
       |force ns0 e w1 w2 Hnew Hforce Hyes Hns Hcs
       |force ns0 atts w1 w2 w3 Hnew Hforce Hyes Hns Hcs Hre];
    cbn [fst snd trace deleted]; intros Heq.
  1-5: exfalso; revert Heq; apply no_removal_split; [|done];
       rewrite ?removals_app, ?removals_gate_events; done.
  apply split_after_prefix in Heq as (pre1 & -> & Heq);
    [|apply removals_gate_events|done].
  apply (split_after_prefix
           [EvGetString "namespace" (Ok ns0); EvContainers (Ok atts.*1)])
    in Heq as (pre2 & -> & Heq); [|done|done].
  apply loop_events_split in Heq
    as (a1 & a2 & -> & -> & -> & -> & -> & ->).
  2: { by rewrite removals_app, removals_report_events. }
  exists force, a1, a2. rewrite <- ?app_assoc. done.
Qed.

End Inversion.

Lemma elem_of_gate_events cmd force ev :
  ev ∈ gate_events cmd force <->
  ev = EvNewClient None \/ ev = EvGetBool "force" (Ok force) \/
  (force = false /\
   (ev = EvWrite prompt \/
    ev = EvFscanf (Fscanf_s (InOrStdin cmd) EmptyString))).
Proof.
  unfold gate_events. destruct force;
    rewrite ?elem_of_cons, ?elem_of_nil; intuition congruence.
Qed.

Lemma elem_of_warn_events a ev :
  ev ∈ warn_events a -> exists e msg, ev = EvWarnf e msg.
Proof.
  destruct a as [c [e|]]; unfold warn_events; simpl.
  - destruct (errors_As_statusError e).
    + by intros ?%elem_of_nil.
    + intros ->%list_elem_of_singleton. eauto.
  - by intros ?%elem_of_nil.
Qed.

Lemma elem_of_loop_events ns atts ev :
  ev ∈ loop_events ns atts ->
  (exists c r, ev = EvRemoveContainer c ns false true r /\ (c, r) ∈ atts) \/
  (exists e msg, ev = EvWarnf e msg).
Proof.
  induction atts as [|[c r] atts IH]; simpl.
  - by intros ?%elem_of_nil.
  - rewrite elem_of_cons, elem_of_app.
    intros [->|[H|H]].
    + left. exists c, r. split; [done|by left].
    + right. by apply elem_of_warn_events in H.
    + destruct (IH H) as [(c' & r' & -> & Hin)|?]; [|by right].
      left. exists c', r'. split; [done|by right].
Qed.

(** A warning among the events of the loop stems from an attempt that
    failed with an error in which [errors.As] finds no [statusError]. *)
Lemma warning_of_loop_events ns atts e msg :
  EvWarnf e msg ∈ loop_events ns atts ->
  errors_As_statusError e = false /\
  exists c,
    (c, Some e) ∈ atts /\ msg = ("failed to remove container " ++ ID c)%string.
Proof.
  induction atts as [|[c r] atts IH]; simpl.
  - by intros ?%elem_of_nil.
  - rewrite elem_of_cons, elem_of_app. intros [H|[H|H]].
    + discriminate.
    + unfold warn_events in H. cbn [fst snd] in H.
      destruct r as [e'|]; [|by apply elem_of_nil in H].
      destruct (errors_As_statusError e') eqn:Has;
        [by apply elem_of_nil in H|].
      apply list_elem_of_singleton in H. inversion H; subst.
      split; [done|]. exists c. split; [by left|done].
    + destruct (IH H) as (Has & c' & Hin & ->).
      split; [done|]. exists c'. split; [by right|done].
Qed.

Lemma elem_of_report_events ids ev :
  ev ∈ report_events ids -> exists text, ev = EvWrite text.
Proof.
  destruct ids as [|id ids]; [by intros ?%elem_of_nil|].
  unfold report_events. rewrite elem_of_cons, list_elem_of_fmap.
  intros [->|(x & -> & _)]; eauto.
Qed.

Lemma rune_ToLower_y (c : ascii) :
  rune_ToLower c = "y"%char <-> c = "y"%char \/ c = "Y"%char.
Proof.
  destruct c as [[] [] [] [] [] [] [] []]; vm_compute;
    split; intros H; try discriminate; auto;
    destruct H; discriminate.
Qed.

(** Comparing the lower-cased token with ["y"] is a case-insensitive
    comparison of the token with ["y"]. *)
Lemma ToLower_y (tok : string) :
  ToLower tok = "y" <-> tok = "y" \/ tok = "Y".
Proof.
  destruct tok as [|c [|c' tok]]; simpl.
  - split; [discriminate|]. intros [?|?]; discriminate.
  - split.
    + intros H. inversion H as [Hc]. apply rune_ToLower_y in Hc as [->| ->]; auto.
    + intros [H|H]; inversion H; done.
  - split; [discriminate|]. intros [?|?]; discriminate.
Qed.

Lemma token_no_space (input : list rune) (r : rune) :
  In r (token input) -> isSpace r = false.
Proof.
  induction input as [|r0 rest IH]; simpl; [done|].
  destruct (isSpace r0) eqn:Hr; simpl; [done|].
  intros [<-|H]; auto.
Qed.

(** The token that [Fscanf] stores is the UTF-8 encoding of a run of runes
    none of which is white space. *)
Lemma Fscanf_s_no_space (input : string) :
  exists word,
    Fscanf_s input EmptyString = EncodeRunes word /\
    forall r, In r word -> isSpace r = false.
Proof.
  unfold Fscanf_s. destruct (SkipSpace (ReadRunes input)) as [[|r rest]|].
  - by exists [].
  - exists (token (r :: rest)). split; [done|]. apply token_no_space.
  - by exists [].
Qed.

(** Case analysis of a membership hypothesis on one of the six traces. *)
Ltac mem_cases H :=
  repeat first
    [ apply elem_of_nil in H; destruct H
    | apply elem_of_gate_events in H as [H|[H|[? [H|H]]]]
    | apply elem_of_loop_events in H as [(? & ? & H & ?)|(? & ? & H)]
    | apply elem_of_report_events in H as (? & H)
    | apply elem_of_app in H as [H|H]
    | apply elem_of_cons in H as [H|H] ];
  try discriminate.

Ltac outcomes rt cmd w :=
  destruct (containerPruneAction_outcome rt cmd w)
    as [e0 w1 Hnew|e0 w1 Hnew Hforce|w1 Hnew Hforce Hno
       |force e0 w1 Hnew Hforce Hyes Hns
       |force ns0 e0 w1 w2 Hnew Hforce Hyes Hns Hcs
       |force ns0 atts w1 w2 w3 Hnew Hforce Hyes Hns Hcs Hre];
  cbn [fst snd trace deleted world].

Section Events.

Context {World : Type} (rt : Runtime World) (cmd : Command) (w : World).

Local Abbreviation run := (containerPruneAction rt cmd w).

(** A successful enumeration in the trace: the run went through the removal
    loop and the report. *)
Lemma enumerated_inv cs :
  EvContainers (Ok cs) ∈ trace run.2 ->
  exists force ns atts,
    atts.*1 = cs /\
    GetBool cmd "force" = Ok force /\ confirmed cmd force /\
    GetString cmd "namespace" = Ok ns /\
    run.1 = None /\
    deleted run.2 = successes atts /\
    trace run.2 =
      gate_events cmd force ++
      [EvGetString "namespace" (Ok ns); EvContainers (Ok cs)] ++
      loop_events ns atts ++ report_events (successes atts) ++ [EvCancel].
Proof.
  outcomes rt cmd w; intros H; mem_cases H.
  inversion H; subst. by exists force, ns0, atts.
Qed.

(** The removal calls recorded in such a run are the answers of the runtime
    to the calls made one after the other from the world that the
    enumeration left. *)
Lemma enumerated_replay cs :
  EvContainers (Ok cs) ∈ trace run.2 ->
  exists ns w2,
    GetString cmd "namespace" = Ok ns /\
    Containers rt (newClient rt cmd w).2 = (Ok cs, w2) /\
    replay rt cmd ns cs w2 = (removals (trace run.2), world run.2).
Proof.
  outcomes rt cmd w; intros H; mem_cases H.
  inversion H; subst. exists ns0, w2. rewrite Hnew.
  rewrite !removals_app, removals_gate_events, removals_loop_events,
    removals_report_events. cbn [removals app snd]. by rewrite app_nil_r.
Qed.

(** A failed enumeration in the trace. *)
Lemma enumeration_failed_inv e :
  EvContainers (Err e) ∈ trace run.2 ->
  exists force ns,
    GetBool cmd "force" = Ok force /\ confirmed cmd force /\
    GetString cmd "namespace" = Ok ns /\
    run.1 = Some e /\
    deleted run.2 = [] /\
    trace run.2 =
      gate_events cmd force ++
      [EvGetString "namespace" (Ok ns); EvContainers (Err e); EvCancel].
Proof.
  outcomes rt cmd w; intros H; mem_cases H.
  inversion H; subst. by exists force, ns0.
Qed.

(** The force flag was read as [false]: the prompt was printed and a token
    read. *)
Lemma not_forced_inv :
  EvGetBool "force" (Ok false) ∈ trace run.2 ->
  exists rest,
    GetBool cmd "force" = Ok false /\
    trace run.2 = gate_events cmd false ++ rest /\
    (ToLower (Fscanf_s (InOrStdin cmd) EmptyString) <> "y" ->
     rest = [EvCancel] /\ run.1 = None /\ deleted run.2 = [] /\
     world run.2 = (newClient rt cmd w).2) /\
    (ToLower (Fscanf_s (InOrStdin cmd) EmptyString) = "y" ->
     exists rest',
       rest = EvGetString "namespace" (GetString cmd "namespace") :: rest') /\
    (forall tok, EvFscanf tok ∉ rest).
Proof.
  outcomes rt cmd w; intros H; mem_cases H.
  - exists [EvCancel]. rewrite Hnew. split_and!; auto.
    + intros Hy. by destruct Hno.
    + intros tok Hin. mem_cases Hin.
  - inversion H; subst.
    exists [EvGetString "namespace" (Err e0); EvCancel].
    destruct Hyes as [?|Hy]; [done|]. rewrite Hns. split_and!; auto.
    + by intros Hn.
    + eauto.
    + intros tok Hin. mem_cases Hin.
  - inversion H; subst.
    exists [EvGetString "namespace" (Ok ns0); EvContainers (Err e0); EvCancel].
    destruct Hyes as [?|Hy]; [done|]. rewrite Hns. split_and!; auto.
    + by intros Hn.
    + eauto.
    + intros tok Hin. mem_cases Hin.
  - inversion H; subst.
    eexists. split; [done|]. split; [reflexivity|].
    destruct Hyes as [?|Hy]; [done|]. rewrite Hns. split_and!.
    + by intros Hn.
    + eauto.
    + intros tok Hin. mem_cases Hin.
Qed.

(** Every warning of a run carries an error in which [errors.As] finds no
    [statusError]. *)
Lemma warning_inv e msg :
  EvWarnf e msg ∈ trace run.2 -> errors_As_statusError e = false.
Proof.
  outcomes rt cmd w; intros H.
  1-5: by mem_cases H.
  apply elem_of_app in H as [H|H]; [by mem_cases H|].
  apply elem_of_app in H as [H|H]; [by mem_cases H|].
  apply elem_of_app in H as [H|H]; [|by mem_cases H].
  by apply warning_of_loop_events in H as [? _].
Qed.

End Events.

Lemma removal_calls_app (tr1 tr2 : list event) :
  removal_calls (tr1 ++ tr2) = removal_calls tr1 ++ removal_calls tr2.
Proof.
  induction tr1 as [|ev tr1 IH]; [done|].
  destruct ev; simpl; by rewrite ?IH.
Qed.

Lemma removal_calls_none (tr : list event) :
  removals tr = [] -> removal_calls tr = [].
Proof.
  induction tr as [|ev tr IH]; [done|]. destruct ev; simpl; auto. done.
Qed.

Lemma removal_calls_loop_events ns atts :
  removal_calls (loop_events ns atts) =
    map (fun c => (c, ns, false, true)) atts.*1.
Proof.
  induction atts as [|[c r] atts IH]; [done|].
  simpl. rewrite removal_calls_app, IH.
  by rewrite (removal_calls_none _ (removals_warn_events (c, r))).
Qed.

Lemma removals_completed cmd force ns cs atts :
  removals
    (gate_events cmd force ++
     [EvGetString "namespace" (Ok ns); EvContainers (Ok cs)] ++
     loop_events ns atts ++ report_events (successes atts) ++ [EvCancel])
  = atts.
Proof.
  rewrite !removals_app, removals_gate_events, removals_loop_events,
    removals_report_events. simpl. by rewrite app_nil_r.
Qed.

(** ** The claims *)

Section Claims.

Context {World : Type} (rt : Runtime World) (cmd : Command) (w : World).

Local Abbreviation run := (containerPruneAction rt cmd w).

(** C1.  In every run that reaches the report step, that is, every run whose
    enumeration succeeded with the list [cs]: removal was attempted on the
    instances of [cs], once each and in that order, and the recorded
    results are the answers of the runtime to these calls; [deleted] holds
    exactly the identifiers of the attempts that returned [nil], in the
    order of the attempts; hence an identifier is in [deleted] iff a removal
    call on an instance with that identifier succeeded, and [deleted] is a
    subsequence of the enumerated identifiers. *)
Theorem deleted_set_exact cs :
  EvContainers (Ok cs) ∈ trace run.2 ->
  (removals (trace run.2)).*1 = cs /\
  (exists ns w2,
     GetString cmd "namespace" = Ok ns /\
     Containers rt (newClient rt cmd w).2 = (Ok cs, w2) /\
     replay rt cmd ns cs w2 = (removals (trace run.2), world run.2)) /\
  deleted run.2 = successes (removals (trace run.2)) /\
  (forall id,
     id ∈ deleted run.2 <->
     exists c ns force flag,
       EvRemoveContainer c ns force flag None ∈ trace run.2 /\ ID c = id) /\
  deleted run.2 `sublist_of` (ID <$> cs).
Proof.
  intros Hcs. pose proof (enumerated_replay rt cmd w cs Hcs) as Hre.
  revert Hcs.
  intros (fc & ns & atts & <- & _ & _ & _ & _ & Hdel & Htr)%enumerated_inv.
  assert (Hrm : removals (trace run.2) = atts)
    by (rewrite Htr; apply removals_completed).
  rewrite Hdel. split_and!.
  - by rewrite Hrm.
  - exact Hre.
  - by rewrite Hrm.
  - intros id. rewrite elem_of_successes, <- Hrm. split.
    + intros (c & (ns' & f & b & H)%elem_of_removals & <-).
      by exists c, ns', f, b.
    + intros (c & ns' & f & b & H & <-). exists c. split; [|done].
      apply elem_of_removals. by exists ns', f, b.
  - apply successes_sublist.
Qed.

(** C3.  If the enumeration call returns an error, the command returns that
    error; the failed call and the deferred [cancel] are the last two events
    of the run, no removal call is made and [deleted] stays empty. *)
Theorem enumeration_failure_aborts e :
  EvContainers (Err e) ∈ trace run.2 ->
  run.1 = Some e /\
  removals (trace run.2) = [] /\
  deleted run.2 = [] /\
  exists pre, trace run.2 = pre ++ [EvContainers (Err e); EvCancel].
Proof.
  intros (force & ns & _ & _ & _ & -> & -> & ->)%enumeration_failed_inv.
  split_and!; auto.
  - by rewrite removals_app, removals_gate_events.
  - exists (gate_events cmd force ++ [EvGetString "namespace" (Ok ns)]).
    by rewrite <- app_assoc.
Qed.

(** C2.  When the force flag is read as [false], the run starts with the
    client creation, the flag read, the fixed prompt written to the output
    stream and one token read from the input stream, in that order, and no
    other token is read afterwards.  The token is the UTF-8 encoding of a
    run of runes none of which is white space; it is empty when the input
    is empty.  If its lower-cased form differs from ["y"] the command
    returns [nil] at once: only the deferred [cancel] follows, no removal
    is attempted, [deleted] is empty and the world is as the client
    creation left it.  If it equals ["y"], which holds exactly for the
    tokens ["y"] and ["Y"], the command goes on to read the namespace
    flag. *)
Theorem confirmation_gate :
  EvGetBool "force" (Ok false) ∈ trace run.2 ->
  let tok := Fscanf_s (InOrStdin cmd) EmptyString in
  exists rest,
    trace run.2 =
      [EvNewClient None; EvGetBool "force" (Ok false);
       EvWrite prompt; EvFscanf tok] ++ rest /\
    (forall tok', EvFscanf tok' ∉ rest) /\
    (exists word,
       tok = EncodeRunes word /\
       forall r, In r word -> isSpace r = false) /\
    (InOrStdin cmd = EmptyString -> tok = EmptyString) /\
    (ToLower tok <> "y" ->
     rest = [EvCancel] /\ run.1 = None /\
     removals (trace run.2) = [] /\ deleted run.2 = [] /\
     world run.2 = (newClient rt cmd w).2) /\
    (ToLower tok = "y" ->
     exists rest',
       rest = EvGetString "namespace" (GetString cmd "namespace") :: rest') /\
    (ToLower tok = "y" <-> tok = "y" \/ tok = "Y").
Proof.
  intros (rest & _ & Htr & Hno & Hyes & Hone)%not_forced_inv tok.
  exists rest. split_and!; auto.
  - apply Fscanf_s_no_space.
  - subst tok. by intros ->.
  - intros Hn. destruct (Hno Hn) as (-> & ? & ? & ?).
    split_and!; auto. by rewrite Htr.
  - apply ToLower_y.
Qed.

(** C4.  Whenever a removal call returns an error in whose chain
    [errors.As] finds a [statusError]: the event that follows the call is
    not a warning (the loop goes straight to the next instance, or to the
    report) and no warning of the run carries this error; [deleted] at the
    end is made of the successes before and the successes after this call,
    so the instance contributes nothing to it; and the enumerated instances
    are exactly those attempted before the call, this one, and those
    attempted after it, so that every later instance is still processed. *)
Theorem status_rejection_skipped pre post c ns force flag e :
  trace run.2 = pre ++ EvRemoveContainer c ns force flag (Some e) :: post ->
  errors_As_statusError e = true ->
  (forall e' msg, head post <> Some (EvWarnf e' msg)) /\
  (forall msg, EvWarnf e msg ∉ trace run.2) /\
  deleted run.2 = successes (removals pre) ++ successes (removals post) /\
  exists cs,
    EvContainers (Ok cs) ∈ pre /\
    cs = (removals pre).*1 ++ c :: (removals post).*1.
Proof.
  intros Htr Has.
  assert (Hquiet : forall msg, EvWarnf e msg ∉ trace run.2).
  { intros msg Hin%warning_inv. congruence. }
  revert Htr.
  intros (fc & a1 & a2 & Hns & -> & -> & Hexit & Hdel & -> & ->)%removal_split.
  unfold warn_events. cbn [fst snd]. rewrite Has. cbn [app].
  rewrite Hdel. clear Hdel.
  rewrite !removals_app, removals_gate_events, removals_report_events.
  cbn [removals app]. rewrite !removals_loop_events, app_nil_r.
  split_and!.
  - intros e' msg. destruct a2 as [|[c2 r2] a2]; cbn [loop_events app].
    + destruct (successes _); cbn; discriminate.
    + cbn. discriminate.
  - exact Hquiet.
  - by rewrite successes_app.
  - eexists. split.
    + apply elem_of_app. right. apply elem_of_cons. right.
      apply elem_of_cons. by left.
    + by rewrite fmap_app.
Qed.

(** C5.  Whenever a removal call returns an error, of whatever kind, the
    command still returns [nil].  When [errors.As] finds no [statusError]
    in that error, the very next event is a warning that carries the error
    and a message made of the instance identifier; [deleted] at the end is
    made of the successes before and after this call, so the instance
    contributes nothing to it; and the enumerated instances are exactly
    those attempted before the call, this one, and those attempted after
    it, so that the loop goes on with the next instance. *)
Theorem unexpected_failure_warned pre post c ns force flag e :
  trace run.2 = pre ++ EvRemoveContainer c ns force flag (Some e) :: post ->
  run.1 = None /\
  (errors_As_statusError e = false ->
   exists post',
     post = EvWarnf e ("failed to remove container " ++ ID c) :: post' /\
     deleted run.2 = successes (removals pre) ++ successes (removals post') /\
     exists cs,
       EvContainers (Ok cs) ∈ pre /\
       cs = (removals pre).*1 ++ c :: (removals post').*1).
Proof.
  intros (fc & a1 & a2 & Hns & -> & -> & Hexit & Hdel & -> & ->)%removal_split.
  split; [done|]. intros Has.
  unfold warn_events. cbn [fst snd]. rewrite Has. cbn [app].
  eexists. split; [reflexivity|].
  rewrite Hdel. clear Hdel.
  rewrite !removals_app, removals_gate_events, removals_report_events.
  cbn [removals app]. rewrite !removals_loop_events, app_nil_r.
  split.
  - by rewrite successes_app.
  - eexists. split.
    + apply elem_of_app. right. apply elem_of_cons. right.
      apply elem_of_cons. by left.
    + by rewrite fmap_app.
Qed.

(** C6.  In every run that reaches the report step, the trace ends with the
    report followed by the deferred [cancel].  The report is empty when
    [deleted] is empty, which is the case when no instance was enumerated;
    otherwise it is the header line followed by one line per identifier of
    [deleted], in order.  Everything before the report contains all the
    removal calls, and nothing was written there but the prompt. *)
Theorem report_contract cs :
  EvContainers (Ok cs) ∈ trace run.2 ->
  exists pre,
    trace run.2 =
      pre ++
      match deleted run.2 with
      | [] => []
      | _ :: _ =>
          EvWrite ("Deleted Containers:" ++ newline) ::
          map (fun id => EvWrite (id ++ newline)) (deleted run.2)
      end ++ [EvCancel] /\
    removals pre = removals (trace run.2) /\
    (forall text, EvWrite text ∈ pre -> text = prompt) /\
    (cs = [] -> deleted run.2 = []).
Proof.
  intros (force & ns & atts & <- & _ & _ & _ & _ & -> & ->)%enumerated_inv.
  exists (gate_events cmd force ++
          [EvGetString "namespace" (Ok ns); EvContainers (Ok atts.*1)] ++
          loop_events ns atts).
  split_and!.
  - rewrite <- !app_assoc. done.
  - rewrite !removals_app, removals_gate_events, removals_report_events.
    cbn [removals app]. by rewrite !app_nil_r.
  - intros text H. mem_cases H. by inversion H.
  - intros Hnil. by destruct atts.
Qed.

(** C7, as amended.  The command returns [nil] exactly when the run was
    completed (the enumeration succeeded) or declined (a token other than
    ["y"]/["Y"] was read); it returns the error [e] exactly when the client
    creation, the read of the force flag, the read of the namespace flag or
    the enumeration failed with [e]. *)
Theorem exit_status :
  (run.1 = None <->
   (exists cs, EvContainers (Ok cs) ∈ trace run.2) \/
   (exists tok, EvFscanf tok ∈ trace run.2 /\ ToLower tok <> "y")) /\
  (forall e,
     run.1 = Some e <->
     EvNewClient (Some e) ∈ trace run.2 \/
     EvGetBool "force" (Err e) ∈ trace run.2 \/
     EvGetString "namespace" (Err e) ∈ trace run.2 \/
     EvContainers (Err e) ∈ trace run.2).
Proof.
  outcomes rt cmd w; split.
  - split; [done|]. intros [[cs H]|(tok & H & _)]; mem_cases H.
  - intros e. split.
    + intros [= ->]. left. by left.
    + intros [H|[H|[H|H]]]; mem_cases H. by inversion H.
  - split; [done|]. intros [[cs H]|(tok & H & _)]; mem_cases H.
  - intros e. split.
    + intros [= ->]. right. left. right. by left.
    + intros [H|[H|[H|H]]]; mem_cases H. by inversion H.
  - split; [|done]. intros _. right.
    exists (Fscanf_s (InOrStdin cmd) EmptyString). split; [|done].
    apply elem_of_app. left. apply elem_of_gate_events. auto.
  - intros e. split; [done|].
    intros [H|[H|[H|H]]]; mem_cases H.
  - split; [done|]. intros [[cs H]|(tok & H & Hn)]; mem_cases H.
    inversion H; subst. destruct Hyes; done.
  - intros e. split.
    + intros [= ->]. right. right. left. apply elem_of_app. right. by left.
    + intros [H|[H|[H|H]]]; mem_cases H. by inversion H.
  - split; [done|]. intros [[cs H]|(tok & H & Hn)]; mem_cases H.
    inversion H; subst. destruct Hyes; done.
  - intros e. split.
    + intros [= ->]. right. right. right. apply elem_of_app. right.
      right. by left.
    + intros [H|[H|[H|H]]]; mem_cases H. by inversion H.
  - split; [|done]. intros _. left. exists atts.*1.
    apply elem_of_app. right. right. by left.
  - intros e. split; [done|].
    intros [H|[H|[H|H]]]; mem_cases H.
Qed.

(** C8.  When the force flag is read as [false] and the token read from the
    input stream is ["n"], the command returns [nil]; the trace holds no
    enumeration call and no removal call; nothing but the prompt is written
    to the output stream; [deleted] is empty and the world is as the client
    creation left it. *)
Theorem declined_n_no_client_calls :
  EvGetBool "force" (Ok false) ∈ trace run.2 ->
  EvFscanf "n" ∈ trace run.2 ->
  run.1 = None /\
  (forall r, EvContainers r ∉ trace run.2) /\
  removals (trace run.2) = [] /\
  written (trace run.2) = [prompt] /\
  deleted run.2 = [] /\
  world run.2 = (newClient rt cmd w).2.
Proof.
  intros (rest & _ & Htr & Hno & _ & Hone)%not_forced_inv Hn.
  rewrite Htr in Hn. apply elem_of_app in Hn as [Hn|Hn];
    [|by apply Hone in Hn].
  mem_cases Hn. inversion Hn as [Htok]. rewrite <- Htok in Hno.
  destruct Hno as (-> & ? & ? & ?); [done|].
  rewrite Htr. split_and!; auto.
  intros r Hin. mem_cases Hin.
Qed.

(** C9.  In every run whose enumeration succeeded with the list [cs], the
    namespace flag was read as some [ns] and the removal calls are, in
    order, one call per instance of [cs] with the arguments [ns], [false]
    and [true]; so every removal call of the trace is on an enumerated
    instance and carries these three arguments. *)
Theorem removal_call_arguments cs :
  EvContainers (Ok cs) ∈ trace run.2 ->
  exists ns,
    GetString cmd "namespace" = Ok ns /\
    removal_calls (trace run.2) = map (fun c => (c, ns, false, true)) cs /\
    (forall c ns' force flag r,
       EvRemoveContainer c ns' force flag r ∈ trace run.2 ->
       c ∈ cs /\ ns' = ns /\ force = false /\ flag = true).
Proof.
  intros (fc & ns & atts & <- & _ & _ & Hns & _ & _ & Htr)%enumerated_inv.
  exists ns. split_and!; auto.
  - rewrite Htr, !removal_calls_app, removal_calls_loop_events.
    rewrite (removal_calls_none _ (removals_gate_events cmd fc)).
    rewrite (removal_calls_none _ (removals_report_events (successes atts))).
    cbn [removal_calls app]. by rewrite app_nil_r.
  - intros c ns' force flag r H. rewrite Htr in H. mem_cases H.
    inversion H; subst. split_and!; auto.
    apply list_elem_of_fmap. by eexists (_, _).
Qed.

(** C10.  The client creation and the read of the force flag come first.
    If the client creation fails with [e], the command returns [e] and that
    call is the only event of the run.  If the flag read fails with [e], the
    command returns [e] and the run consists of the client creation, the
    failed read and the deferred [cancel].  In both cases nothing is
    written, no token is read and no removal is attempted.  Conversely, any
    run in which something is written, a token is read or a removal is
    attempted starts with a successful client creation followed by a
    successful read of the force flag. *)
Theorem setup_failure_aborts :
  (forall e w1,
     newClient rt cmd w = (Some e, w1) ->
     run = (Some e, mkState w1 [] [EvNewClient (Some e)])) /\
  (forall e w1,
     newClient rt cmd w = (None, w1) ->
     GetBool cmd "force" = Err e ->
     run =
       (Some e,
        mkState w1 []
          [EvNewClient None; EvGetBool "force" (Err e); EvCancel])) /\
  (forall ev,
     ev ∈ trace run.2 ->
     (exists text, ev = EvWrite text) \/ (exists tok, ev = EvFscanf tok) \/
     is_removal ev = true ->
     exists force rest,
       trace run.2 =
         EvNewClient None :: EvGetBool "force" (Ok force) :: rest /\
       ev ∈ rest).
Proof.
  split_and!.
  - intros e w' H. outcomes rt cmd w; congruence.
  - intros e w' H1 H2. outcomes rt cmd w; congruence.
  - intros ev. outcomes rt cmd w; intros H Hev.
    + mem_cases H. subst ev.
      destruct Hev as [[? ?]|[[? ?]|?]]; discriminate.
    + mem_cases H; subst ev;
        destruct Hev as [[? ?]|[[? ?]|?]]; discriminate.
    + exists false. eexists. split; [reflexivity|].
      cbn [gate_events app] in H.
      apply elem_of_cons in H as [->|H];
        [destruct Hev as [[? ?]|[[? ?]|?]]; discriminate|].
      apply elem_of_cons in H as [->|H];
        [destruct Hev as [[? ?]|[[? ?]|?]]; discriminate|]. done.
    + exists force. eexists. split; [reflexivity|].
      unfold gate_events in H. cbn [app] in H.
      apply elem_of_cons in H as [->|H];
        [destruct Hev as [[? ?]|[[? ?]|?]]; discriminate|].
      apply elem_of_cons in H as [->|H];
        [destruct Hev as [[? ?]|[[? ?]|?]]; discriminate|]. done.
    + exists force. eexists. split; [reflexivity|].
      unfold gate_events in H. cbn [app] in H.
      apply elem_of_cons in H as [->|H];
        [destruct Hev as [[? ?]|[[? ?]|?]]; discriminate|].
      apply elem_of_cons in H as [->|H];
        [destruct Hev as [[? ?]|[[? ?]|?]]; discriminate|]. done.
    + exists force. eexists. split; [reflexivity|].
      unfold gate_events in H. cbn [app] in H.
      apply elem_of_cons in H as [->|H];
        [destruct Hev as [[? ?]|[[? ?]|?]]; discriminate|].
      apply elem_of_cons in H as [->|H];
        [destruct Hev as [[? ?]|[[? ?]|?]]; discriminate|]. done.
Qed.

End Claims.

(** ** The claims on a concrete daemon

    [Demo.three] holds a stopped, a running, another stopped and a broken
    instance. *)

Lemma deleted_set_exact_witness :
  EvContainers (Ok [Demo.c1; Demo.c2; Demo.c3; Demo.c4])
    ∈ trace (containerPruneAction Demo.runtime Demo.forced Demo.three).2 /\
  deleted (containerPruneAction Demo.runtime Demo.forced Demo.three).2 =
    successes
      (removals
         (trace (containerPruneAction Demo.runtime Demo.forced Demo.three).2)).
Proof.
  assert (H : EvContainers (Ok [Demo.c1; Demo.c2; Demo.c3; Demo.c4])
                ∈ trace (containerPruneAction Demo.runtime Demo.forced
                           Demo.three).2)
    by (vm_compute; repeat constructor).
  split; [exact H|].
  exact (proj1 (proj2 (proj2 (deleted_set_exact Demo.runtime Demo.forced
                                Demo.three _ H)))).
Defined.

Lemma confirmation_gate_witness :
  EvGetBool "force" (Ok false)
    ∈ trace (containerPruneAction Demo.runtime (Demo.asked "no")
               Demo.three).2 /\
  exists rest,
    trace (containerPruneAction Demo.runtime (Demo.asked "no") Demo.three).2 =
      [EvNewClient None; EvGetBool "force" (Ok false);
       EvWrite prompt; EvFscanf "no"] ++ rest.
Proof.
  assert (H : EvGetBool "force" (Ok false)
                ∈ trace (containerPruneAction Demo.runtime (Demo.asked "no")
                           Demo.three).2)
    by (vm_compute; repeat constructor).
  split; [exact H|].
  destruct (confirmation_gate Demo.runtime (Demo.asked "no") Demo.three H)
    as (rest & Htr & _).
  exists rest. exact Htr.
Defined.

Lemma enumeration_failure_aborts_witness :
  EvContainers (Err (otherError "rpc error: unavailable"))
    ∈ trace (containerPruneAction Demo.runtime Demo.forced
               Demo.unlistable).2 /\
  (containerPruneAction Demo.runtime Demo.forced Demo.unlistable).1 =
    Some (otherError "rpc error: unavailable").
Proof.
  assert (H : EvContainers (Err (otherError "rpc error: unavailable"))
                ∈ trace (containerPruneAction Demo.runtime Demo.forced
                           Demo.unlistable).2)
    by (vm_compute; repeat constructor).
  split; [exact H|].
  exact (proj1 (enumeration_failure_aborts Demo.runtime Demo.forced
                  Demo.unlistable _ H)).
Defined.

Lemma status_rejection_skipped_witness :
  exists pre post,
    trace (containerPruneAction Demo.runtime Demo.forced Demo.three).2 =
      pre ++
      EvRemoveContainer Demo.c2 "default" false true (Some Demo.running) ::
      post /\
    errors_As_statusError Demo.running = true /\
    forall e' msg, head post <> Some (EvWarnf e' msg).
Proof.
  exists [EvNewClient None; EvGetBool "force" (Ok true);
          EvGetString "namespace" (Ok "default");
          EvContainers (Ok [Demo.c1; Demo.c2; Demo.c3; Demo.c4]);
          EvRemoveContainer Demo.c1 "default" false true None].
  exists [EvRemoveContainer Demo.c3 "default" false true None;
          EvRemoveContainer Demo.c4 "default" false true (Some Demo.busy);
          EvWarnf Demo.busy "failed to remove container c4";
          EvWrite ("Deleted Containers:" ++ newline);
          EvWrite ("c1" ++ newline); EvWrite ("c3" ++ newline); EvCancel].
  assert (H1 : trace (containerPruneAction Demo.runtime Demo.forced
                        Demo.three).2 =
               [EvNewClient None; EvGetBool "force" (Ok true);
                EvGetString "namespace" (Ok "default");
                EvContainers (Ok [Demo.c1; Demo.c2; Demo.c3; Demo.c4]);
                EvRemoveContainer Demo.c1 "default" false true None] ++
               EvRemoveContainer Demo.c2 "default" false true
                 (Some Demo.running) ::
               [EvRemoveContainer Demo.c3 "default" false true None;
                EvRemoveContainer Demo.c4 "default" false true
                  (Some Demo.busy);
                EvWarnf Demo.busy "failed to remove container c4";
                EvWrite ("Deleted Containers:" ++ newline);
                EvWrite ("c1" ++ newline); EvWrite ("c3" ++ newline);
                EvCancel])
    by (vm_compute; reflexivity).
  assert (H2 : errors_As_statusError Demo.running = true) by reflexivity.
  split; [exact H1|]. split; [exact H2|].
  exact (proj1 (status_rejection_skipped Demo.runtime Demo.forced Demo.three
                  _ _ _ _ _ _ _ H1 H2)).
Defined.

Lemma unexpected_failure_warned_witness :
  exists pre post,
    trace (containerPruneAction Demo.runtime Demo.forced Demo.three).2 =
      pre ++
      EvRemoveContainer Demo.c4 "default" false true (Some Demo.busy) ::
      post /\
    errors_As_statusError Demo.busy = false /\
    (containerPruneAction Demo.runtime Demo.forced Demo.three).1 = None /\
    exists post',
      post = EvWarnf Demo.busy "failed to remove container c4" :: post'.
Proof.
  exists [EvNewClient None; EvGetBool "force" (Ok true);
          EvGetString "namespace" (Ok "default");
          EvContainers (Ok [Demo.c1; Demo.c2; Demo.c3; Demo.c4]);
          EvRemoveContainer Demo.c1 "default" false true None;
          EvRemoveContainer Demo.c2 "default" false true (Some Demo.running);
          EvRemoveContainer Demo.c3 "default" false true None].
  exists [EvWarnf Demo.busy "failed to remove container c4";
          EvWrite ("Deleted Containers:" ++ newline);
          EvWrite ("c1" ++ newline); EvWrite ("c3" ++ newline); EvCancel].
  assert (H1 : trace (containerPruneAction Demo.runtime Demo.forced
                        Demo.three).2 =
               [EvNewClient None; EvGetBool "force" (Ok true);
                EvGetString "namespace" (Ok "default");
                EvContainers (Ok [Demo.c1; Demo.c2; Demo.c3; Demo.c4]);
                EvRemoveContainer Demo.c1 "default" false true None;
                EvRemoveContainer Demo.c2 "default" false true
                  (Some Demo.running);
                EvRemoveContainer Demo.c3 "default" false true None] ++
               EvRemoveContainer Demo.c4 "default" false true
                 (Some Demo.busy) ::
               [EvWarnf Demo.busy "failed to remove container c4";
                EvWrite ("Deleted Containers:" ++ newline);
                EvWrite ("c1" ++ newline); EvWrite ("c3" ++ newline);
                EvCancel])
    by (vm_compute; reflexivity).
  assert (H2 : errors_As_statusError Demo.busy = false) by reflexivity.
  split; [exact H1|]. split; [exact H2|].
  destruct (unexpected_failure_warned Demo.runtime Demo.forced Demo.three
              _ _ _ _ _ _ _ H1) as [Hexit Hwarn].
  split; [exact Hexit|].
  destruct (Hwarn H2) as (post' & Hpost & _).
  exists post'. exact Hpost.
Defined.

Lemma report_contract_witness :
  EvContainers (Ok [Demo.c1; Demo.c2; Demo.c3; Demo.c4])
    ∈ trace (containerPruneAction Demo.runtime (Demo.asked "Y")
               Demo.three).2 /\
  exists pre,
    trace (containerPruneAction Demo.runtime (Demo.asked "Y") Demo.three).2 =
      pre ++
      match
        deleted (containerPruneAction Demo.runtime (Demo.asked "Y")
                   Demo.three).2
      with
      | [] => []
      | _ :: _ =>
          EvWrite ("Deleted Containers:" ++ newline) ::
          map (fun id => EvWrite (id ++ newline))
            (deleted (containerPruneAction Demo.runtime (Demo.asked "Y")
                        Demo.three).2)
      end ++ [EvCancel].
Proof.
  assert (H : EvContainers (Ok [Demo.c1; Demo.c2; Demo.c3; Demo.c4])
                ∈ trace (containerPruneAction Demo.runtime (Demo.asked "Y")
                           Demo.three).2)
    by (vm_compute; repeat constructor).
  split; [exact H|].
  destruct (report_contract Demo.runtime (Demo.asked "Y") Demo.three _ H)
    as (pre & Htr & _).
  exists pre. exact Htr.
Defined.

Lemma declined_n_no_client_calls_witness :
  EvGetBool "force" (Ok false)
    ∈ trace (containerPruneAction Demo.runtime (Demo.asked "n")
               Demo.three).2 /\
  EvFscanf "n"
    ∈ trace (containerPruneAction Demo.runtime (Demo.asked "n")
               Demo.three).2 /\
  (containerPruneAction Demo.runtime (Demo.asked "n") Demo.three).1 = None /\
  removals
    (trace (containerPruneAction Demo.runtime (Demo.asked "n")
              Demo.three).2) = [].
Proof.
  assert (H1 : EvGetBool "force" (Ok false)
                 ∈ trace (containerPruneAction Demo.runtime (Demo.asked "n")
                            Demo.three).2)
    by (vm_compute; repeat constructor).
  assert (H2 : EvFscanf "n"
                 ∈ trace (containerPruneAction Demo.runtime (Demo.asked "n")
                            Demo.three).2)
    by (vm_compute; repeat constructor).
  split; [exact H1|]. split; [exact H2|].
  destruct (declined_n_no_client_calls Demo.runtime (Demo.asked "n")
              Demo.three H1 H2) as (Hexit & _ & Hrm & _).
  split; [exact Hexit|exact Hrm].
Defined.

Lemma removal_call_arguments_witness :
  EvContainers (Ok [Demo.c1; Demo.c2; Demo.c3; Demo.c4])
    ∈ trace (containerPruneAction Demo.runtime Demo.forced Demo.three).2 /\
  exists ns,
    GetString Demo.forced "namespace" = Ok ns /\
    removal_calls
      (trace (containerPruneAction Demo.runtime Demo.forced Demo.three).2) =
      map (fun c => (c, ns, false, true))
        [Demo.c1; Demo.c2; Demo.c3; Demo.c4].
Proof.
  assert (H : EvContainers (Ok [Demo.c1; Demo.c2; Demo.c3; Demo.c4])
                ∈ trace (containerPruneAction Demo.runtime Demo.forced
                           Demo.three).2)
    by (vm_compute; repeat constructor).
  split; [exact H|].
  destruct (removal_call_arguments Demo.runtime Demo.forced Demo.three _ H)
    as (ns & Hns & Hcalls & _).
  exists ns. split; [exact Hns|exact Hcalls].
Defined.

Lemma setup_failure_aborts_witness :
  newClient Demo.runtime Demo.forced Demo.unreachable =
    (Some (otherError "cannot access containerd socket"), Demo.unreachable) /\
  containerPruneAction Demo.runtime Demo.forced Demo.unreachable =
    (Some (otherError "cannot access containerd socket"),
     mkState Demo.unreachable []
       [EvNewClient (Some (otherError "cannot access containerd socket"))]) /\
  newClient Demo.runtime Demo.no_force_flag Demo.three = (None, Demo.three) /\
  GetBool Demo.no_force_flag "force" =
    Err (otherError "flag accessed but not defined: force") /\
  containerPruneAction Demo.runtime Demo.no_force_flag Demo.three =
    (Some (otherError "flag accessed but not defined: force"),
     mkState Demo.three []
       [EvNewClient None;
        EvGetBool "force"
          (Err (otherError "flag accessed but not defined: force"));
        EvCancel]).
Proof.
  assert (H1 : newClient Demo.runtime Demo.forced Demo.unreachable =
               (Some (otherError "cannot access containerd socket"),
                Demo.unreachable)) by reflexivity.
  assert (H2 : newClient Demo.runtime Demo.no_force_flag Demo.three =
               (None, Demo.three)) by reflexivity.
  assert (H3 : GetBool Demo.no_force_flag "force" =
               Err (otherError "flag accessed but not defined: force"))
    by reflexivity.
  split; [exact H1|]. split.
  - exact (proj1 (setup_failure_aborts Demo.runtime Demo.forced
                    Demo.unreachable) _ _ H1).
  - split; [exact H2|]. split; [exact H3|].
    exact (proj1 (proj2 (setup_failure_aborts Demo.runtime
                           Demo.no_force_flag Demo.three)) _ _ H2 H3).
Defined.

(** C7 as stated does not hold.  With the containerd socket out of reach the
    command returns an error although the namespace flag is readable and
    neither the namespace read nor the enumeration, failed or not, takes
    place; and so it does when the flag set has no [force] flag. *)
Lemma exit_only_two_cases_counterexample :
  ((containerPruneAction Demo.runtime Demo.forced Demo.unreachable).1
     <> None /\
   GetString Demo.forced "namespace" = Ok "default" /\
   (forall r,
      EvGetString "namespace" r
        ∉ trace (containerPruneAction Demo.runtime Demo.forced
                   Demo.unreachable).2) /\
   (forall r,
      EvContainers r
        ∉ trace (containerPruneAction Demo.runtime Demo.forced
                   Demo.unreachable).2)) /\
  ((containerPruneAction Demo.runtime Demo.no_force_flag Demo.three).1
     <> None /\
   GetString Demo.no_force_flag "namespace" = Ok "default" /\
   (forall r,
      EvGetString "namespace" r
        ∉ trace (containerPruneAction Demo.runtime Demo.no_force_flag
                   Demo.three).2) /\
   (forall r,
      EvContainers r
        ∉ trace (containerPruneAction Demo.runtime Demo.no_force_flag
                   Demo.three).2)).
Proof.
  split; (split_and!; [done|done| |]); intros r H; vm_compute in H;
    repeat (apply elem_of_cons in H as [H|H]; [discriminate|]);
    by apply elem_of_nil in H.
Qed.

(** ** Further properties of [containerPruneAction] *)

Lemma count_app p (tr1 tr2 : list event) :
  count p (tr1 ++ tr2) = count p tr1 + count p tr2.
Proof. unfold count. by rewrite List.filter_app, length_app. Qed.

Lemma count_loop_events p ns atts :
  (forall c ns' f b r, p (EvRemoveContainer c ns' f b r) = false) ->
  (forall e msg, p (EvWarnf e msg) = false) ->
  count p (loop_events ns atts) = 0.
Proof.
  intros Hrm Hwarn. induction atts as [|[c r] atts IH]; [done|].
  cbn [loop_events]. rewrite count_app, IH.
  unfold count, attempt_events, warn_events. cbn [List.filter fst snd].
  rewrite Hrm.
  destruct r as [e|]; [|done].
  destruct (errors_As_statusError e); [done|].
  cbn [List.filter]. by rewrite Hwarn.
Qed.

Lemma count_report_events p ids :
  (forall text, p (EvWrite text) = false) -> count p (report_events ids) = 0.
Proof.
  intros Hw. destruct ids as [|id ids]; [done|].
  unfold report_events, count. cbn [List.filter]. rewrite Hw.
  generalize (id :: ids). intros l.
  induction l as [|x l IH]; [done|]. cbn [map List.filter]. by rewrite Hw.
Qed.

Lemma warnings_app (tr1 tr2 : list event) :
  warnings (tr1 ++ tr2) = warnings tr1 ++ warnings tr2.
Proof.
  induction tr1 as [|ev tr1 IH]; [done|].
  destruct ev; simpl; by rewrite ?IH.
Qed.

Lemma warnings_loop_events ns atts :
  warnings (loop_events ns atts) = unexpected atts.
Proof.
  induction atts as [|[c [e|]] atts IH]; [done| |];
    cbn [loop_events]; rewrite warnings_app, IH;
    unfold attempt_events, warn_events; cbn [fst snd unexpected].
  - by destruct (errors_As_statusError e).
  - done.
Qed.

Lemma warnings_report_events ids : warnings (report_events ids) = [].
Proof.
  destruct ids as [|id ids]; [done|]. unfold report_events.
  generalize (id :: ids). intros l. cbn [warnings].
  induction l; simpl; done.
Qed.

Lemma warnings_gate_events cmd force : warnings (gate_events cmd force) = [].
Proof. by destruct force. Qed.

Lemma three_outcomes (atts : list attempt) :
  length atts =
    length (successes atts) + length (rejected atts) +
    length (unexpected atts).
Proof.
  induction atts as [|[c [e|]] atts IH]; [done| |]; simpl.
  - destruct (errors_As_statusError e); simpl; lia.
  - lia.
Qed.

Section Further.

Context {World : Type} (rt : Runtime World) (cmd : Command) (w : World).

Local Abbreviation run := (containerPruneAction rt cmd w).

(** X1.  The two standard streams.  What the command writes to its output
    stream is the prompt, if and only if the client was created and the
    force flag read as [false], followed by the report of [deleted]; on
    every early exit there is no report.  A token is read from the input
    stream under the same condition and never otherwise, so a forced run
    reads nothing. *)
Theorem standard_streams :
  let asked :=
    match (newClient rt cmd w).1, GetBool cmd "force" with
    | None, Ok false => true
    | _, _ => false
    end in
  written (trace run.2) =
    (if asked then [prompt] else []) ++
    match deleted run.2 with
    | [] => []
    | _ :: _ =>
        ("Deleted Containers:" ++ newline)%string ::
        map (fun id => (id ++ newline)%string) (deleted run.2)
    end /\
  (forall tok,
     EvFscanf tok ∈ trace run.2 <->
     asked = true /\ tok = Fscanf_s (InOrStdin cmd) EmptyString).
Proof.
  outcomes rt cmd w; rewrite Hnew; cbn [fst]; rewrite ?Hforce.
  - split; [done|]. intros tok. split; [intros H; mem_cases H|].
    by intros [? _].
  - split; [done|]. intros tok. split; [intros H; mem_cases H|].
    by intros [? _].
  - split; [done|]. intros tok. split.
    + intros H. mem_cases H. by inversion H.
    + intros [_ ->]. apply elem_of_app. left. apply elem_of_gate_events.
      auto.
  - split.
    + rewrite written_app, written_gate_events. cbn [written].
      destruct force; by rewrite ?app_nil_r.
    + intros tok. split.
      * intros H. mem_cases H. subst. by inversion H.
      * destruct force; intros [? ->]; [done|].
        apply elem_of_app. left. apply elem_of_gate_events. auto.
  - split.
    + rewrite written_app, written_gate_events. cbn [written].
      destruct force; by rewrite ?app_nil_r.
    + intros tok. split.
      * intros H. mem_cases H. subst. by inversion H.
      * destruct force; intros [? ->]; [done|].
        apply elem_of_app. left. apply elem_of_gate_events. auto.
  - split.
    + rewrite !written_app, written_gate_events, written_loop_events,
        written_report_events. cbn [written app].
      destruct force; destruct (successes atts); by rewrite ?app_nil_r.
    + intros tok. split.
      * intros H. mem_cases H. subst. by inversion H.
      * destruct force; intros [? ->]; [done|].
        apply elem_of_app. left. apply elem_of_gate_events. auto.
Qed.

(** X2.  The client is created exactly once, as the first event of the
    run; each flag is read at most once, at most one token is read and the
    instances are enumerated at most once, so the removal loop works on a
    single snapshot of the container list. *)
Theorem setup_calls_once :
  count is_newClient (trace run.2) = 1 /\
  (exists r rest, trace run.2 = EvNewClient r :: rest) /\
  count is_GetBool (trace run.2) <= 1 /\
  count is_GetString (trace run.2) <= 1 /\
  count is_Fscanf (trace run.2) <= 1 /\
  count is_enumeration (trace run.2) <= 1.
Proof.
  outcomes rt cmd w;
    rewrite ?count_app, ?count_loop_events, ?count_report_events by done;
    try destruct force; cbn; split_and!; eauto; lia.
Qed.

(** X3.  The deferred [cancel] runs exactly once when the client was
    created, and then it is the last event of the run, whichever way the
    function is left; it does not run when the client creation failed. *)
Theorem cancel_deferred :
  count is_cancel (trace run.2) =
    match (newClient rt cmd w).1 with None => 1 | Some _ => 0 end /\
  ((newClient rt cmd w).1 = None ->
   exists pre, trace run.2 = pre ++ [EvCancel]).
Proof.
  outcomes rt cmd w; rewrite Hnew; cbn [fst];
    rewrite ?count_app, ?count_loop_events, ?count_report_events by done.
  - done.
  - split; [done|]. intros _.
    by exists [EvNewClient None; EvGetBool "force" (Err e0)].
  - split; [done|]. intros _. by exists (gate_events cmd false).
  - split; [by destruct force|]. intros _.
    exists (gate_events cmd force ++ [EvGetString "namespace" (Err e0)]).
    by rewrite <- app_assoc.
  - split; [by destruct force|]. intros _.
    exists (gate_events cmd force ++
            [EvGetString "namespace" (Ok ns0); EvContainers (Err e0)]).
    by rewrite <- app_assoc.
  - split; [by destruct force|]. intros _.
    exists (gate_events cmd force ++
            [EvGetString "namespace" (Ok ns0); EvContainers (Ok atts.*1)] ++
            loop_events ns0 atts ++ report_events (successes atts)).
    by rewrite <- !app_assoc.
Qed.

(** X4.  Every enumerated instance ends in exactly one of three ways:
    deleted, rejected for its state, or failed with a warning.  The
    warnings of the run are, in order, those of the failures in which
    [errors.As] finds no [statusError], each made of the error and of the
    identifier of the instance; and the three groups add up to the number
    of enumerated instances. *)
Theorem three_outcomes_accounting cs :
  EvContainers (Ok cs) ∈ trace run.2 ->
  warnings (trace run.2) = unexpected (removals (trace run.2)) /\
  length cs =
    length (deleted run.2) + length (rejected (removals (trace run.2))) +
    length (warnings (trace run.2)).
Proof.
  intros (fc & ns & atts & <- & _ & _ & _ & _ & -> & ->)%enumerated_inv.
  rewrite removals_completed.
  rewrite !warnings_app, warnings_gate_events, warnings_loop_events,
    warnings_report_events. cbn [warnings app]. rewrite app_nil_r.
  split; [done|]. rewrite length_fmap. apply three_outcomes.
Qed.

(** X5.  If the enumerated instances have pairwise distinct identifiers, no
    identifier is reported twice: [deleted] has no duplicates. *)
Theorem deleted_NoDup cs :
  EvContainers (Ok cs) ∈ trace (containerPruneAction rt cmd w).2 ->
  NoDup (ID <$> cs) ->
  NoDup (deleted (containerPruneAction rt cmd w).2).
Proof.
  intros (fc & ns & atts & <- & _ & _ & _ & _ & -> & _)%enumerated_inv Hnd.
  eapply sublist_NoDup; [exact Hnd|]. apply successes_sublist.
Qed.

(** X6.  Without an enumeration nothing happens to the containers: if the
    run holds no enumeration call, successful or not, then no removal is
    attempted, [deleted] is empty, the world is as the client creation left
    it, and nothing but the prompt is written. *)
Theorem no_enumeration_no_effect :
  (forall r, EvContainers r ∉ trace run.2) ->
  removals (trace run.2) = [] /\
  deleted run.2 = [] /\
  world run.2 = (newClient rt cmd w).2 /\
  (forall text, EvWrite text ∈ trace run.2 -> text = prompt).
Proof.
  outcomes rt cmd w; intros Hnone; rewrite Hnew; cbn [snd].
  - split_and!; auto. intros text H. mem_cases H.
  - split_and!; auto. intros text H. mem_cases H.
  - split_and!; auto. intros text H. mem_cases H. by inversion H.
  - split_and!; auto.
    + by rewrite removals_app, removals_gate_events.
    + intros text H. mem_cases H. by inversion H.
  - exfalso. apply (Hnone (Err e0)). apply elem_of_app. right. right.
    by left.
  - exfalso. apply (Hnone (Ok atts.*1)). apply elem_of_app. right. right.
    by left.
Qed.

End Further.

(** ** Which inputs pass the confirmation gate *)

Lemma isNewline_isSpace (r : rune) : isNewline r = true -> isSpace r = true.
Proof. unfold isNewline. by intros ->%N.eqb_eq. Qed.

Lemma SkipSpace_Some (input : list rune) (r : rune) (rest : list rune) :
  SkipSpace input = Some (r :: rest) <->
  exists blanks,
    input = blanks ++ r :: rest /\
    (forall c, In c blanks -> isSpace c = true /\ isNewline c = false) /\
    isSpace r = false.
Proof.
  split.
  - induction input as [|a input IH]; cbn [SkipSpace]; [discriminate|].
    destruct (isNewline a) eqn:Hnl; [discriminate|].
    destruct (isSpace a) eqn:Hsp.
    + intros (blanks & -> & Hbl & Hr)%IH.
      exists (a :: blanks). split; [done|]. split; [|done].
      intros c [<-|Hc]; auto.
    + intros [= -> ->]. exists []. split; [done|]. split; [|done].
      by intros c [].
  - intros (blanks & -> & Hbl & Hr).
    induction blanks as [|a blanks IH]; cbn [SkipSpace app].
    + rewrite Hr.
      destruct (isNewline r) eqn:Hnl; [|done].
      apply isNewline_isSpace in Hnl. congruence.
    + destruct (Hbl a) as [-> ->]; [by left|].
      apply IH. intros c Hc. apply Hbl. by right.
Qed.

Lemma token_empty (rest : list rune) :
  token rest = [] <->
  rest = [] \/ exists c rest', rest = c :: rest' /\ isSpace c = true.
Proof.
  destruct rest as [|c rest']; cbn [token].
  - split; [by left|done].
  - destruct (isSpace c) eqn:Hc.
    + split; [|done]. intros _. right. by exists c, rest'.
    + split; [discriminate|].
      intros [?|(c' & r' & [= <- <-] & ?)]; congruence.
Qed.

Lemma EncodeRune_cons (r : rune) : exists b s, EncodeRune r = String b s.
Proof.
  unfold EncodeRune.
  repeat match goal with
         | |- context [if ?c then _ else _] => destruct c
         end; eauto.
Qed.

Lemma EncodeRunes_empty (word : list rune) :
  EncodeRunes word = EmptyString -> word = [].
Proof.
  destruct word as [|r word]; [done|]. cbn [EncodeRunes].
  destruct (EncodeRune_cons r) as (b & s & ->). discriminate.
Qed.

(** Only a single rune below 128 is encoded as a single byte. *)
Lemma EncodeRunes_one_byte (word : list rune) (a : ascii) :
  (N_of_ascii a < 128)%N ->
  EncodeRunes word = String a EmptyString <-> word = [N_of_ascii a].
Proof.
  intros Ha. split.
  - destruct word as [|r word]; [discriminate|]. cbn [EncodeRunes].
    unfold EncodeRune. destruct (N.leb r 127) eqn:Hr.
    + cbn. intros [= <- ->%EncodeRunes_empty].
      apply N.leb_le in Hr. rewrite N_ascii_embedding; [done|lia].
    + repeat match goal with
             | |- context [if ?c then _ else _] => destruct c
             end; cbn; discriminate.
  - intros ->. cbn [EncodeRunes]. unfold EncodeRune.
    assert (Hle : N.leb (N_of_ascii a) 127 = true)
      by (apply N.leb_le; lia).
    rewrite Hle. cbn. by rewrite ascii_N_embedding.
Qed.

Lemma Fscanf_s_one_rune (input : string) (a : ascii) :
  (N_of_ascii a < 128)%N ->
  isSpace (N_of_ascii a) = false ->
  Fscanf_s input EmptyString = String a EmptyString <->
  exists blanks rest,
    ReadRunes input = blanks ++ N_of_ascii a :: rest /\
    (forall c, In c blanks -> isSpace c = true /\ isNewline c = false) /\
    (rest = [] \/ exists c rest', rest = c :: rest' /\ isSpace c = true).
Proof.
  intros Ha Hy. unfold Fscanf_s. split.
  - destruct (SkipSpace (ReadRunes input)) as [[|r rest]|] eqn:E;
      try discriminate.
    apply SkipSpace_Some in E as (blanks & -> & Hbl & Hr).
    cbn [token]. rewrite Hr.
    intros [= -> Htok]%EncodeRunes_one_byte; [|done].
    exists blanks, rest. split; [done|]. split; [done|].
    by apply token_empty.
  - intros (blanks & rest & -> & Hbl & Hrest).
    assert (E : SkipSpace (blanks ++ N_of_ascii a :: rest) =
                Some (N_of_ascii a :: rest)).
    { apply SkipSpace_Some. by exists blanks. }
    rewrite E. cbn [token]. rewrite Hy.
    apply EncodeRunes_one_byte; [done|]. f_equal. by apply token_empty.
Qed.

Section Gate.

Context {World : Type} (rt : Runtime World) (cmd : Command) (w : World).

Local Abbreviation run := (containerPruneAction rt cmd w).

(** X7.  In a run that asks for confirmation, the command goes past the
    gate, to the read of the namespace flag, if and only if the runes read
    from the input stream are blanks other than newline, then [y] or [Y],
    then white space or the end of the input; the blanks are those of
    [fmt], U+00A0 and the like included.  So a longer word that starts with
    [y], or a [y] that follows an empty line, declines. *)
Theorem gate_accepts_input :
  EvGetBool "force" (Ok false) ∈ trace run.2 ->
  (exists r, EvGetString "namespace" r ∈ trace run.2) <->
  exists blanks y rest,
    ReadRunes (InOrStdin cmd) = blanks ++ y :: rest /\
    (forall r, In r blanks -> isSpace r = true /\ isNewline r = false) /\
    (y = N_of_ascii "y" \/ y = N_of_ascii "Y") /\
    (rest = [] \/ exists r rest', rest = r :: rest' /\ isSpace r = true).
Proof.
  intros (tl & _ & Htr & Hno & Hyes & _)%not_forced_inv.
  assert (Hgo : (exists r, EvGetString "namespace" r ∈ trace run.2) <->
                ToLower (Fscanf_s (InOrStdin cmd) EmptyString) = "y").
  { split.
    - intros [r Hin].
      destruct (string_dec
                  (ToLower (Fscanf_s (InOrStdin cmd) EmptyString)) "y")
        as [|Hn]; [done|].
      destruct (Hno Hn) as (-> & _). rewrite Htr in Hin. mem_cases Hin.
    - intros (tl' & ->)%Hyes. eexists. rewrite Htr.
      apply elem_of_app. right. by left. }
  rewrite Hgo, ToLower_y. split.
  - intros [Hy|Hy].
    + apply (Fscanf_s_one_rune _ "y") in Hy
        as (blanks & rest & ? & ? & ?); [|done|done].
      exists blanks, (N_of_ascii "y"), rest. auto.
    + apply (Fscanf_s_one_rune _ "Y") in Hy
        as (blanks & rest & ? & ? & ?); [|done|done].
      exists blanks, (N_of_ascii "Y"), rest. auto.
  - intros (blanks & y & rest & Hin & Hbl & [-> | ->] & Hrest).
    + left. apply (Fscanf_s_one_rune _ "y"); [done|done|].
      by exists blanks, rest.
    + right. apply (Fscanf_s_one_rune _ "Y"); [done|done|].
      by exists blanks, rest.
Qed.

(** X8.  The removal loop composes: it never leaves the function, and
    running it on [cs1 ++ cs2] is running it on [cs2] from the state in
    which running it on [cs1] ends. *)
Theorem range_containers_app ns cs1 cs2 (s : state World) :
  (range_containers rt cmd ns cs1 s).1 = Next tt /\
  range_containers rt cmd ns (cs1 ++ cs2) s =
    range_containers rt cmd ns cs2 (range_containers rt cmd ns cs1 s).2.
Proof.
  revert s. induction cs1 as [|c cs1 IH]; intros s; [done|].
  cbn [app range_containers]. unfold bind, call_removeContainer.
  destruct (removeContainer rt cmd c ns false true (world s)) as [r w1].
  destruct r as [e|]; [destruct (errors_As_statusError e)|];
    cbn [ret Warnf log append_deleted]; apply IH.
Qed.

End Gate.

(** ** The command as built by [newContainerPruneCommand] *)

Lemma Lookup_app_l (fs more : FlagSet) (f : Flag) name :
  Lookup fs name = Some f -> Lookup (fs ++ more) name = Some f.
Proof.
  unfold Lookup. induction fs as [|h fs IH]; simpl; [discriminate|].
  destruct (String.eqb (Name h) name); auto.
Qed.

(** X9.  The constructor does not panic: it yields a command with
    [cobra.NoArgs], [containerPruneAction] as its action, and a [force]
    flag of type [bool] that is [false] by default.  Whatever flags are
    added to that flag set afterwards, as long as the [force] flag keeps
    its default the read of the force flag in the action cannot fail and
    yields [false]: once the client is created the prompt is written and a
    token read, and a removal is attempted only if that token is ["y"] or
    ["Y"]. *)
Theorem plain_prune_asks_first {World : Type} (rt : Runtime World) :
  exists c,
    newContainerPruneCommand rt = Some c /\
    Args c = NoArgs /\
    forall (more : FlagSet) (input : string) (w : World),
      let cmd := command_of (Flags c ++ more) input in
      let run := RunE c cmd w in
      GetBool cmd "force" = Ok false /\
      (forall r, EvGetBool "force" r ∈ trace run.2 -> r = Ok false) /\
      (EvNewClient None ∈ trace run.2 ->
       exists rest,
         trace run.2 =
           [EvNewClient None; EvGetBool "force" (Ok false);
            EvWrite prompt; EvFscanf (Fscanf_s input EmptyString)] ++
           rest) /\
      (removals (trace run.2) <> [] ->
       Fscanf_s input EmptyString = "y" \/
       Fscanf_s input EmptyString = "Y").
Proof.
  eexists. split; [reflexivity|]. split; [reflexivity|].
  intros more input w. cbn [Flags RunE]. cbn zeta.
  set (fs := _ ++ more).
  assert (Hf : GetBool (command_of fs input) "force" = Ok false).
  { cbn [GetBool command_of]. unfold FlagSet_GetBool. subst fs.
    erewrite Lookup_app_l; [|reflexivity]. done. }
  split; [exact Hf|].
  outcomes rt (command_of fs input) w; try rewrite Hf in Hforce;
    try discriminate; try (injection Hforce as <-).
  - split_and!.
    + intros r H. mem_cases H.
    + intros H. mem_cases H.
    + done.
  - split_and!.
    + intros r H. mem_cases H. by inversion H.
    + intros _. by exists [EvCancel].
    + done.
  - split_and!.
    + intros r H. mem_cases H. by inversion H.
    + intros _. by eexists.
    + rewrite removals_app, removals_gate_events. done.
  - split_and!.
    + intros r H. mem_cases H. by inversion H.
    + intros _. by eexists.
    + rewrite removals_app, removals_gate_events. done.
  - split_and!.
    + intros r H. mem_cases H. by inversion H.
    + intros _. by eexists.
    + intros _. destruct Hyes as [?|Hy]; [done|]. by apply ToLower_y.
Qed.

(** ** The further properties on concrete inputs *)

Lemma three_outcomes_accounting_witness :
  EvContainers (Ok [Demo.c1; Demo.c2; Demo.c3; Demo.c4])
    ∈ trace (containerPruneAction Demo.runtime Demo.forced Demo.three).2 /\
  length [Demo.c1; Demo.c2; Demo.c3; Demo.c4] =
    length (deleted (containerPruneAction Demo.runtime Demo.forced
                       Demo.three).2) +
    length
      (rejected
         (removals
            (trace (containerPruneAction Demo.runtime Demo.forced
                      Demo.three).2))) +
    length
      (warnings
         (trace (containerPruneAction Demo.runtime Demo.forced
                   Demo.three).2)).
Proof.
  assert (H : EvContainers (Ok [Demo.c1; Demo.c2; Demo.c3; Demo.c4])
                ∈ trace (containerPruneAction Demo.runtime Demo.forced
                           Demo.three).2)
    by (vm_compute; repeat constructor).
  split; [exact H|].
  exact (proj2 (three_outcomes_accounting Demo.runtime Demo.forced Demo.three
                  _ H)).
Defined.

Lemma deleted_NoDup_witness :
  EvContainers (Ok [Demo.c1; Demo.c2; Demo.c3; Demo.c4])
    ∈ trace (containerPruneAction Demo.runtime Demo.forced Demo.three).2 /\
  NoDup (ID <$> [Demo.c1; Demo.c2; Demo.c3; Demo.c4]) /\
  NoDup (deleted (containerPruneAction Demo.runtime Demo.forced
                    Demo.three).2).
Proof.
  assert (H : EvContainers (Ok [Demo.c1; Demo.c2; Demo.c3; Demo.c4])
                ∈ trace (containerPruneAction Demo.runtime Demo.forced
                           Demo.three).2)
    by (vm_compute; repeat constructor).
  assert (Hnd : NoDup (ID <$> [Demo.c1; Demo.c2; Demo.c3; Demo.c4])).
  { cbn. repeat (apply NoDup_cons; split;
                 [rewrite ?elem_of_cons, elem_of_nil; intuition discriminate|]).
    apply NoDup_nil. done. }
  split; [exact H|]. split; [exact Hnd|].
  exact (deleted_NoDup Demo.runtime Demo.forced Demo.three _ H Hnd).
Defined.

Lemma no_enumeration_no_effect_witness :
  (forall r,
     EvContainers r
       ∉ trace (containerPruneAction Demo.runtime (Demo.asked "n")
                  Demo.three).2) /\
  world (containerPruneAction Demo.runtime (Demo.asked "n") Demo.three).2 =
    (newClient Demo.runtime (Demo.asked "n") Demo.three).2.
Proof.
  assert (H : forall r,
            EvContainers r
              ∉ trace (containerPruneAction Demo.runtime (Demo.asked "n")
                         Demo.three).2).
  { intros r Hin. vm_compute in Hin.
    repeat (apply elem_of_cons in Hin as [Hin|Hin]; [discriminate|]).
    by apply elem_of_nil in Hin. }
  split; [exact H|].
  exact (proj1 (proj2 (proj2 (no_enumeration_no_effect Demo.runtime
                                (Demo.asked "n") Demo.three H)))).
Defined.

Lemma gate_accepts_input_witness :
  EvGetBool "force" (Ok false)
    ∈ trace (containerPruneAction Demo.runtime (Demo.asked " Y")
               Demo.three).2 /\
  exists r,
    EvGetString "namespace" r
      ∈ trace (containerPruneAction Demo.runtime (Demo.asked " Y")
                 Demo.three).2.
Proof.
  assert (H : EvGetBool "force" (Ok false)
                ∈ trace (containerPruneAction Demo.runtime (Demo.asked " Y")
                           Demo.three).2)
    by (vm_compute; repeat constructor).
  split; [exact H|].
  apply (proj2 (gate_accepts_input Demo.runtime (Demo.asked " Y") Demo.three
                  H)).
  exists [N_of_ascii " "], (N_of_ascii "Y"), []. split; [reflexivity|]. split.
  - intros c [<-|[]]. split; reflexivity.
  - split; [by right|by left].
Defined.

Lemma plain_prune_asks_first_witness :
  exists c,
    newContainerPruneCommand Demo.runtime = Some c /\
    forall r,
      EvGetBool "force" r
        ∈ trace (RunE c (command_of (Flags c ++ root_flags) "n")
                   Demo.three).2 ->
      r = Ok false.
Proof.
  destruct (plain_prune_asks_first Demo.runtime) as (c & Hc & _ & H).
  exists c. split; [exact Hc|].
  exact (proj1 (proj2 (H root_flags "n" Demo.three))).
Defined.

(** ** Forcing and confirming *)

Lemma replay_ext {World : Type} (rt : Runtime World) (cmd1 cmd2 : Command)
    ns cs (w : World) :
  (forall c ns' f b w',
     removeContainer rt cmd1 c ns' f b w' =
     removeContainer rt cmd2 c ns' f b w') ->
  replay rt cmd1 ns cs w = replay rt cmd2 ns cs w.
Proof.
  intros Heq. revert w. induction cs as [|c cs IH]; intros w; [done|].
  cbn [replay]. rewrite Heq.
  destruct (removeContainer rt cmd2 c ns false true w) as [r w1].
  by rewrite IH.
Qed.

(** X11.  [--force] only suppresses the question.  Take two invocations in
    the same world that differ in the force flag alone: the first is
    forced, the second is not and its input confirms.  Then both return the
    same error, leave the same world and the same [deleted], make the same
    removal calls with the same results and log the same warnings; the
    second writes the prompt, if the client could be created, and then what
    the first writes. *)
Theorem force_is_confirmation {World : Type} (rt : Runtime World)
    (cmd1 cmd2 : Command) (w : World) :
  GetBool cmd1 "force" = Ok true ->
  GetBool cmd2 "force" = Ok false ->
  ToLower (Fscanf_s (InOrStdin cmd2) EmptyString) = "y" ->
  GetString cmd1 "namespace" = GetString cmd2 "namespace" ->
  (forall w', newClient rt cmd1 w' = newClient rt cmd2 w') ->
  (forall c ns f b w',
     removeContainer rt cmd1 c ns f b w' =
     removeContainer rt cmd2 c ns f b w') ->
  (containerPruneAction rt cmd1 w).1 = (containerPruneAction rt cmd2 w).1 /\
  world (containerPruneAction rt cmd1 w).2 =
    world (containerPruneAction rt cmd2 w).2 /\
  deleted (containerPruneAction rt cmd1 w).2 =
    deleted (containerPruneAction rt cmd2 w).2 /\
  removals (trace (containerPruneAction rt cmd1 w).2) =
    removals (trace (containerPruneAction rt cmd2 w).2) /\
  warnings (trace (containerPruneAction rt cmd1 w).2) =
    warnings (trace (containerPruneAction rt cmd2 w).2) /\
  written (trace (containerPruneAction rt cmd2 w).2) =
    match (newClient rt cmd1 w).1 with
    | None => [prompt]
    | Some _ => []
    end ++ written (trace (containerPruneAction rt cmd1 w).2).
Proof.
  intros Hf1 Hf2 Htok Hns12 Hnc Hrm.
  pose proof (replay_ext rt cmd1 cmd2) as Hreplay.
  outcomes rt cmd1 w;
    destruct (containerPruneAction_outcome rt cmd2 w)
      as [e' w1' Hnew'|e' w1' Hnew' Hforce'|w1' Hnew' Hforce' Hno'
         |force' e' w1' Hnew' Hforce' Hyes' Hns'
         |force' ns' e' w1' w2' Hnew' Hforce' Hyes' Hns' Hcs'
         |force' ns' atts' w1' w2' w3' Hnew' Hforce' Hyes' Hns' Hcs' Hre'];
    cbn [fst snd trace deleted world];
    rewrite <- ?Hnc in Hnew'; rewrite <- ?Hns12 in *;
    rewrite Hnew in *; cbn [fst];
    try congruence.
  - (* both fail to create the client *)
    injection Hnew' as <- <-. done.
  - (* both fail on the namespace flag *)
    assert (force = true) as -> by congruence.
    assert (force' = false) as -> by congruence.
    injection Hnew' as <-.
    assert (e' = e0) as -> by congruence. done.
  - (* both fail to enumerate *)
    assert (force = true) as -> by congruence.
    assert (force' = false) as -> by congruence.
    injection Hnew' as <-.
    rewrite Hcs in Hcs'. injection Hcs' as <- <-. done.
  - (* both complete *)
    assert (force = true) as -> by congruence.
    assert (force' = false) as -> by congruence.
    injection Hnew' as <-.
    assert (ns' = ns0) as -> by congruence.
    rewrite Hcs in Hcs'. injection Hcs' as Hsame <-.
    rewrite <- Hsame, <- (Hreplay ns0 atts.*1 w2 Hrm), Hre in Hre'.
    injection Hre' as <- <-.
    rewrite !removals_completed.
    rewrite !warnings_app, !written_app, !warnings_gate_events,
      !written_gate_events. done.
Qed.

Lemma force_is_confirmation_witness :
  GetBool Demo.forced "force" = Ok true /\
  GetBool (Demo.asked "y") "force" = Ok false /\
  ToLower (Fscanf_s (InOrStdin (Demo.asked "y")) EmptyString) = "y" /\
  deleted (containerPruneAction Demo.runtime Demo.forced Demo.three).2 =
    deleted (containerPruneAction Demo.runtime (Demo.asked "y")
               Demo.three).2.
Proof.
  assert (H1 : GetBool Demo.forced "force" = Ok true) by reflexivity.
  assert (H2 : GetBool (Demo.asked "y") "force" = Ok false) by reflexivity.
  assert (H3 : ToLower (Fscanf_s (InOrStdin (Demo.asked "y")) EmptyString)
               = "y") by reflexivity.
  assert (H4 : GetString Demo.forced "namespace" =
               GetString (Demo.asked "y") "namespace") by reflexivity.
  assert (H5 : forall w',
            newClient Demo.runtime Demo.forced w' =
            newClient Demo.runtime (Demo.asked "y") w')
    by (intros w'; reflexivity).
  assert (H6 : forall c ns f b w',
            removeContainer Demo.runtime Demo.forced c ns f b w' =
            removeContainer Demo.runtime (Demo.asked "y") c ns f b w')
    by (intros c ns f b w'; reflexivity).
  split; [exact H1|]. split; [exact H2|]. split; [exact H3|].
  exact (proj1 (proj2 (proj2 (force_is_confirmation Demo.runtime Demo.forced
                                (Demo.asked "y") Demo.three
                                H1 H2 H3 H4 H5 H6)))).
Defined.
